(** * Conversation sessions of the voice-AI demo backend

    A shallow embedding of [src/voice_ai.py]: the mock response generator
    ([MockAudioProcessor]), the model-backed generator
    ([VoiceAI._generate_llm_response]) and the session bookkeeping of
    [VoiceAI.process_demo_conversation], followed by the properties of the
    conversation-session design that the code satisfies.

    Conventions of the embedding.
    - A Python [str] is a [string]; one character per code point (the
      Latin-1 range is what [ascii] offers).  [len] is [String.length].
    - A Python [dict] is a [gmap]; a message dict has string keys and string
      values, so it is a [gmap string string].
    - An object with mutable attributes is a record that each method takes
      and returns.
    - Raising is a value of [Result]; [try ... except Exception] is a match
      on it.  State changes made before a raise are kept, as in Python.
    - What the process reads from the outside world during one request (the
      clock, the language model) is an [Env] passed with the request. *)

From Stdlib Require Import ZArith Ascii.
From stdpp Require Import gmap strings list fin_maps pretty.

Local Open Scope Z_scope.
Local Open Scope nat_scope.

(** ** Exceptions *)

(** The subclasses of Python's [Exception] that can arise in the modelled
    code.  [ExternalError] stands for anything the tokenizer or the model
    raises. *)
Inductive Exception :=
  | KeyError
  | IndexError
  | AttributeError
  | ExternalError (detail : string).

Inductive Result (A : Type) :=
  | Ok (a : A)
  | Raise (e : Exception).
Arguments Ok {A} a.
Arguments Raise {A} e.

#[global] Instance Result_ret : MRet Result := @Ok.
#[global] Instance Result_bind : MBind Result := λ A B f m,
  match m with
  | Ok a => f a
  | Raise e => Raise e
  end.

(** ** The Python primitives the code relies on *)

Module Py.

(** [not s] on a string: the empty string is falsy. *)
Definition not_str (s : string) : bool :=
  match s with
  | EmptyString => true
  | String _ _ => false
  end.

(** [not x] on an [Optional[str]]: [None] and [""] are falsy. *)
Definition not_opt (x : option string) : bool :=
  match x with
  | None => true
  | Some s => not_str s
  end.

(** [d[k]] on a dict. *)
Definition getitem `{Countable K} {V} (d : gmap K V) (k : K) : Result V :=
  match d !! k with
  | Some v => Ok v
  | None => Raise KeyError
  end.

(** [l[i]] on a list, for [i >= 0]. *)
Definition list_getitem {A} (l : list A) (i : nat) : Result A :=
  match l !! i with
  | Some x => Ok x
  | None => Raise IndexError
  end.

(** [l[start:]]: a negative [start] counts from the end, and the bounds are
    clamped to the list. *)
Definition slice_from {A} (start : Z) (l : list A) : list A :=
  let n := Z.of_nat (length l) in
  let i := if (start <? 0)%Z then Z.max (start + n) 0 else Z.min start n in
  drop (Z.to_nat i) l.

(** [sep.join(l)]. *)
Fixpoint join (sep : string) (l : list string) : string :=
  match l with
  | [] => ""
  | [x] => x
  | x :: rest => x +:+ sep +:+ join sep rest
  end.

(** [c.isspace()] for the code points below 256. *)
Definition isspace (c : ascii) : bool :=
  let n := nat_of_ascii c in
  ((9 <=? n) && (n <=? 13)) || ((28 <=? n) && (n <=? 32))
  || (n =? 133) || (n =? 160).

Fixpoint lstrip (s : string) : string :=
  match s with
  | EmptyString => ""
  | String c s' => if isspace c then lstrip s' else s
  end.

Fixpoint rstrip (s : string) : string :=
  match s with
  | EmptyString => ""
  | String c s' =>
      match rstrip s' with
      | EmptyString => if isspace c then "" else String c ""
      | r => String c r
      end
  end.

(** [s.strip()]. *)
Definition strip (s : string) : string := rstrip (lstrip s).

(** [s.replace(old, new)] for a non-empty [old]: occurrences are found
    left to right and do not overlap.  [skip] counts the characters of a
    matched occurrence that are still to be passed over. *)
Fixpoint replace_go (old new : string) (skip : nat) (s : string) : string :=
  match s with
  | EmptyString => ""
  | String c s' =>
      match skip with
      | S k => replace_go old new k s'
      | O =>
          if String.prefix old s
          then new +:+ replace_go old new (String.length old - 1) s'
          else String c (replace_go old new 0 s')
      end
  end.

Definition replace (old new s : string) : string := replace_go old new 0 s.

(** [str(n)] for an [int], as it appears in an f-string. *)
Definition str_int (n : Z) : string := pretty n.

End Py.

(** The newline character. *)
Definition nl : string := String (ascii_of_nat 10) "".

(** ** The outside world during one request *)

(** [epoch_seconds] is the value of [int(time.time())]; [now_user] and
    [now_ai] are the two readings of [datetime.now().isoformat()], in the
    order the code takes them; [llm] is the pipeline
    [tokenizer.encode], [llm_model.generate], [tokenizer.decode] applied to a
    prompt: it yields the decoded continuation or raises.  Sampling is
    random ([do_sample=True]), so nothing is assumed about [llm]. *)
Record Env := {
  epoch_seconds : Z;
  now_user : string;
  now_ai : string;
  llm : string → Result string;
}.

(** ** MockAudioProcessor *)

Module MockAudioProcessor.

(** [self.responses] is assigned once in [__init__] and never again. *)
Definition responses : list string := [
  "I understand you'd like assistance. How can I help you today?";
  "Thank you for that information. Let me help you with that.";
  "I see. Could you provide more details about your request?";
  "That's a great question. Let me explain that for you.";
  "I'll be happy to assist you with that. What else would you like to know?";
  "Is there anything specific you'd like help with?";
  "Thank you for calling. How else can I assist you today?"
].

Record t := { response_index : nat }.

Definition init : t := {| response_index := 0 |}.

Definition generate_response (self : t) (user_input : string)
  : Result (string * t) :=
  response ← Py.list_getitem responses
               (response_index self mod length responses);
  Ok (response, {| response_index := response_index self + 1 |}).

End MockAudioProcessor.

(** ** VoiceAI *)

(** A message dict, as both literals in [process_demo_conversation] build
    it. *)
Definition message_dict (timestamp speaker message : string)
  : gmap string string :=
  {[ "timestamp" := timestamp;
     "speaker" := speaker;
     "message" := message;
     "type" := "text" ]}.

Module VoiceAI.

(** The value stored under a key of [active_calls]: [{'history': [...]}]. *)
Record CallData := { history : list string }.

(** [llm_loaded] is the truth value of [self.llm_model and self.tokenizer].
    [mock_processor] exists in demo mode only, and only demo mode reads
    it. *)
Record t := {
  demo_mode : bool;
  llm_loaded : bool;
  mock_processor : MockAudioProcessor.t;
  active_calls : gmap (option string) CallData;
  demo_conversations : gmap string (list (gmap string string));
}.

Definition set_mock_processor (mp : MockAudioProcessor.t) (self : t) : t :=
  {| demo_mode := demo_mode self;
     llm_loaded := llm_loaded self;
     mock_processor := mp;
     active_calls := active_calls self;
     demo_conversations := demo_conversations self |}.

Definition set_active_calls (ac : gmap (option string) CallData) (self : t)
  : t :=
  {| demo_mode := demo_mode self;
     llm_loaded := llm_loaded self;
     mock_processor := mock_processor self;
     active_calls := ac;
     demo_conversations := demo_conversations self |}.

Definition set_demo_conversations
    (dc : gmap string (list (gmap string string))) (self : t) : t :=
  {| demo_mode := demo_mode self;
     llm_loaded := llm_loaded self;
     mock_processor := mock_processor self;
     active_calls := active_calls self;
     demo_conversations := dc |}.

(** The state [__init__] leaves behind. *)
Definition init (demo llm_ok : bool) : t :=
  {| demo_mode := demo;
     llm_loaded := llm_ok;
     mock_processor := MockAudioProcessor.init;
     active_calls := ∅;
     demo_conversations := ∅ |}.

Definition system_prompt : string :=
  "You are a helpful customer service representative." +:+ nl +:+
  "            Be polite, professional, and concise. Keep responses under 40 words." +:+ nl +:+
  "            If you don't know something, offer to connect them with a specialist.".

(** The reply substituted for an empty or too short generation. *)
Definition fallback_reply : string :=
  "I understand. How else can I help you?".

(** The reply returned by the [except] branch. *)
Definition apology_reply : string :=
  "I apologize for the technical difficulty. How can I assist you?".

(** [call_data['history'][-6:]]. *)
Definition recent_history (history : list string) : list string :=
  Py.slice_from (-6) history.

(** The f-string that becomes the prompt. *)
Definition build_prompt (recent : list string) : string :=
  system_prompt +:+ nl +:+ nl +:+ "Conversation:" +:+ nl +:+
  Py.join nl recent +:+ nl +:+ "Assistant:".

(** The three calls into the tokenizer and the model.  With no model
    loaded, [self.tokenizer] is [None] or missing and the attribute access
    raises. *)
Definition run_llm (env : Env) (self : t) (prompt : string) : Result string :=
  if llm_loaded self then llm env prompt else Raise AttributeError.

(** The post-processing of the decoded continuation. *)
Definition clean_response (decoded : string) : string :=
  let response := Py.replace "Assistant:" "" (Py.strip decoded) in
  if Py.not_str response || (String.length response <? 3)
  then fallback_reply
  else response.

(** The body of the [try] block: its outcome, and the state as it is when
    the block is left. *)
Definition _generate_llm_response_try (env : Env) (self : t)
    (user_input : string) (conversation_id : option string)
  : Result string * t :=
  let calls :=
    match active_calls self !! conversation_id with
    | None => <[conversation_id := {| history := [] |}]> (active_calls self)
    | Some _ => active_calls self
    end in
  match Py.getitem calls conversation_id with
  | Raise e => (Raise e, set_active_calls calls self)
  | Ok call_data =>
      let history1 := history call_data ++ ["Customer: " +:+ user_input] in
      let self1 :=
        set_active_calls
          (<[conversation_id := {| history := history1 |}]> calls) self in
      let prompt := build_prompt (recent_history history1) in
      match run_llm env self1 prompt with
      | Raise e => (Raise e, self1)
      | Ok decoded =>
          let response := clean_response decoded in
          let history2 := history1 ++ ["Assistant: " +:+ response] in
          (Ok response,
           set_active_calls
             (<[conversation_id := {| history := history2 |}]>
                (active_calls self1)) self1)
      end
  end.

Definition _generate_llm_response (env : Env) (self : t)
    (user_input : string) (conversation_id : option string) : string * t :=
  match _generate_llm_response_try env self user_input conversation_id with
  | (Ok response, self') => (response, self')
  | (Raise _, self') => (apology_reply, self')
  end.

Definition generate_response (env : Env) (self : t)
    (user_input : string) (conversation_id : option string)
  : Result (string * t) :=
  if demo_mode self then
    if llm_loaded self then
      Ok (_generate_llm_response env self user_input conversation_id)
    else
      '(response, mp) ←
        MockAudioProcessor.generate_response (mock_processor self) user_input;
      Ok (response, set_mock_processor mp self)
  else
    Ok (_generate_llm_response env self user_input conversation_id).

(** [d[k].append(x)] on a dict of lists. *)
Definition append_at (k : string) (x : gmap string string)
    (d : gmap string (list (gmap string string)))
  : Result (gmap string (list (gmap string string))) :=
  l ← Py.getitem d k;
  Ok (<[k := l ++ [x]]> d).

(** The dict returned to the caller.  [conversation_history] is the stored
    list itself; the record holds its contents at the time of the
    return. *)
Record DemoResult := {
  conversation_id : string;
  user_message : gmap string string;
  ai_response : gmap string string;
  conversation_history : list (gmap string string);
}.

(** The id the request is filed under. *)
Definition resolve_id (env : Env) (conversation_id : option string) : string :=
  match conversation_id with
  | Some c =>
      if Py.not_str c then "demo_" +:+ Py.str_int (epoch_seconds env) else c
  | None => "demo_" +:+ Py.str_int (epoch_seconds env)
  end.

Definition process_demo_conversation (env : Env) (self : t)
    (user_input : string) (conversation_id : option string)
  : Result (DemoResult * t) :=
  let conversation_id := resolve_id env conversation_id in
  let convs :=
    match demo_conversations self !! conversation_id with
    | None => <[conversation_id := []]> (demo_conversations self)
    | Some _ => demo_conversations self
    end in
  let user_message := message_dict (now_user env) "user" user_input in
  convs1 ← append_at conversation_id user_message convs;
  '(ai_response, self2) ←
    generate_response env (set_demo_conversations convs1 self)
      user_input (Some conversation_id);
  let ai_message := message_dict (now_ai env) "ai" ai_response in
  convs2 ← append_at conversation_id ai_message (demo_conversations self2);
  history ← Py.getitem convs2 conversation_id;
  Ok ({| conversation_id := conversation_id;
         user_message := user_message;
         ai_response := ai_message;
         conversation_history := history |},
      set_demo_conversations convs2 self2).

End VoiceAI.

(** ** Sequences of requests *)

(** The two entry points through which a client reaches the generator: the
    chat request and a direct call of [generate_response]. *)
Inductive Call :=
  | ProcessDemo (env : Env) (user_input : string)
      (conversation_id : option string)
  | GenerateResponse (env : Env) (user_input : string)
      (conversation_id : option string).

Inductive Output :=
  | OutDemo (r : VoiceAI.DemoResult)
  | OutReply (response : string).

Definition step (self : VoiceAI.t) (c : Call) : Result (Output * VoiceAI.t) :=
  match c with
  | ProcessDemo env user_input conversation_id =>
      '(r, self') ←
        VoiceAI.process_demo_conversation env self user_input conversation_id;
      Ok (OutDemo r, self')
  | GenerateResponse env user_input conversation_id =>
      '(response, self') ←
        VoiceAI.generate_response env self user_input conversation_id;
      Ok (OutReply response, self')
  end.

(** The requests are served one after the other. *)
Fixpoint run (self : VoiceAI.t) (calls : list Call)
  : Result (list Output * VoiceAI.t) :=
  match calls with
  | [] => Ok ([], self)
  | c :: rest =>
      '(o, self1) ← step self c;
      '(os, self2) ← run self1 rest;
      Ok (o :: os, self2)
  end.

(** The transcript stored under an id; a session that does not exist has
    recorded nothing. *)
Definition transcript (self : VoiceAI.t) (id : string)
  : list (gmap string string) :=
  default [] (VoiceAI.demo_conversations self !! id).

(** The prompt history stored under an id. *)
Definition history_of (self : VoiceAI.t) (id : option string) : list string :=
  match VoiceAI.active_calls self !! id with
  | Some cd => VoiceAI.history cd
  | None => []
  end.

(** The turns an output reports as recorded on session [id]. *)
Definition recorded_by (id : string) (o : Output) : list (gmap string string) :=
  match o with
  | OutDemo r =>
      if decide (VoiceAI.conversation_id r = id)
      then [VoiceAI.user_message r; VoiceAI.ai_response r]
      else []
  | OutReply _ => []
  end.

Definition recorded_on (id : string) (outs : list Output)
  : list (gmap string string) :=
  flat_map (recorded_by id) outs.

(** Whether an output is the answer to a chat request filed under [id], and
    the number of such answers. *)
Definition files_under (id : string) (o : Output) : bool :=
  match o with
  | OutDemo r => bool_decide (VoiceAI.conversation_id r = id)
  | OutReply _ => false
  end.

Definition requests_on (id : string) (outs : list Output) : nat :=
  length (List.filter (files_under id) outs).

(** The reply text an output carries. *)
Definition reply_of (o : Output) : option string :=
  match o with
  | OutDemo r => VoiceAI.ai_response r !! "message"
  | OutReply response => Some response
  end.

(** The speakers of the data model and their tags in a message dict. *)
Inductive Speaker := User | Assistant.

Definition speaker_of_tag (tag : string) : option Speaker :=
  if decide (tag = "user") then Some User
  else if decide (tag = "ai") then Some Assistant
  else None.

Definition well_formed_turn (m : gmap string string) : Prop :=
  (∃ tag sp, m !! "speaker" = Some tag ∧ speaker_of_tag tag = Some sp)
  ∧ m !! "type" = Some "text"
  ∧ is_Some (m !! "timestamp").

Definition turns_well_formed (self : VoiceAI.t) : Prop :=
  ∀ id t m, VoiceAI.demo_conversations self !! id = Some t →
            m ∈ t → well_formed_turn m.

Import VoiceAI.

(** [answers c o]: the output [o] is what request [c] asked for. *)
Definition answers (c : Call) (o : Output) : Prop :=
  match c, o with
  | ProcessDemo env user_input cid, OutDemo r =>
      conversation_id r = resolve_id env cid
      ∧ user_message r = message_dict (now_user env) "user" user_input
      ∧ ∃ response, response ≠ ""
          ∧ ai_response r = message_dict (now_ai env) "ai" response
  | GenerateResponse _ _ _, OutReply response => response ≠ ""
  | _, _ => False
  end.

(** Whether a request is a chat request filed under [id], and the number of
    such requests. *)
Definition filed_under (id : string) (c : Call) : bool :=
  match c with
  | ProcessDemo env _ cid => bool_decide (resolve_id env cid = id)
  | GenerateResponse _ _ _ => false
  end.

Definition submitted_on (id : string) (calls : list Call) : nat :=
  length (List.filter (filed_under id) calls).

(** The step relation behind [run]. *)
Inductive steps : VoiceAI.t → list Call → list Output → VoiceAI.t → Prop :=
  | steps_nil self : steps self [] [] self
  | steps_cons self c o self1 cs os self2 :
      step self c = Ok (o, self1) →
      steps self1 cs os self2 →
      steps self (c :: cs) (o :: os) self2.

(** The model-backed generator answers in production mode, and in demo mode
    when a model is loaded. *)
Definition uses_llm (self : VoiceAI.t) : bool :=
  negb (demo_mode self) || llm_loaded self.

(** The prompt [_generate_llm_response] hands to the model. *)
Definition prompt_for (self : VoiceAI.t) (id : option string)
    (user_input : string) : string :=
  build_prompt
    (recent_history (history_of self id ++ ["Customer: " +:+ user_input])).

(** ** Sample environments *)

(** Three readings of the outside world that differ only in what the model
    does: it returns the empty string, it raises, it returns a sentence. *)
Definition env_empty : Env :=
  {| epoch_seconds := 1700000000;
     now_user := "2023-11-14T22:13:20.000001";
     now_ai := "2023-11-14T22:13:20.000002";
     llm := λ _, Ok "" |}.

Definition env_raising : Env :=
  {| epoch_seconds := 1700000000;
     now_user := "2023-11-14T22:13:20.000001";
     now_ai := "2023-11-14T22:13:20.000002";
     llm := λ _, Raise (ExternalError "CUDA out of memory") |}.

Definition env_fluent : Env :=
  {| epoch_seconds := 1700000000;
     now_user := "2023-11-14T22:13:20.000001";
     now_ai := "2023-11-14T22:13:20.000002";
     llm := λ _, Ok " Sure, I can help with that. " |}.

(** ** The rest of the service *)

(** *** Text, bytes and attributes *)

Module PyText.

(** [c.lower()] for the code points below 256. *)
Definition lower_char (c : ascii) : ascii :=
  let n := nat_of_ascii c in
  if ((65 <=? n) && (n <=? 90))
     || ((192 <=? n) && (n <=? 222) && negb (n =? 215))
  then ascii_of_nat (n + 32)
  else c.

(** [s.lower()]. *)
Fixpoint lower (s : string) : string :=
  match s with
  | EmptyString => ""
  | String c s' => String (lower_char c) (lower s')
  end.

(** [os.getenv(name, fallback)], given the value of the variable if it is
    set. *)
Definition getenv (value : option string) (fallback : string) : string :=
  default fallback value.

(** [os.getenv(name, 'true').lower() == 'true']. *)
Definition env_flag (value : option string) : bool :=
  bool_decide (lower (getenv value "true") = "true").

End PyText.

(** The double quote, which a string literal cannot hold. *)
Definition dq : string := String (ascii_of_nat 34) "".

(** An attribute of [self] that not every path of [__init__] assigns: never
    assigned, assigned [None], or assigned an object (a loaded model or
    engine, which is truthy). *)
Inductive Attr := Unset | IsNone | Loaded.

(** Reading the attribute in a condition: [if self.attr:]. *)
Definition attr_truth (a : Attr) : Result bool :=
  match a with
  | Unset => Raise AttributeError
  | IsNone => Ok false
  | Loaded => Ok true
  end.

(** The attributes of a [VoiceAI] object besides those of [VoiceAI.t].
    [plivo_client] is assigned on both paths of [__init__]; the field is its
    truth value. *)
Record Parts := {
  whisper_model : Attr;
  tts_engine : Attr;
  plivo_client : bool;
}.

(** An exception object outside the conversation code: its class and
    [str(e)]. *)
Record Raised := {
  raised_class : string;
  raised_text : string;
}.

(** What the remaining methods read from the outside world during one call.
    [whisper] is [np.frombuffer], [whisper_model.transcribe] and
    [result["text"]] on the audio; [tts_render] is the round through the
    temporary file; [plivo_create] is [plivo_client.calls.create] on
    [from_], [to_] and [answer_url], returning [call.call_uuid];
    [call_clock] is [int(time.time())]; the last three are environment
    variables. *)
Record Outside := {
  whisper : list Byte.byte → Result string;
  tts_render : string → Result (list Byte.byte);
  plivo_create : option string → string → string → Raised + string;
  call_clock : Z;
  DEMO_ENABLE_TTS : option string;
  PUBLIC_URL : option string;
  PLIVO_PHONE_NUMBER : option string;
}.

(** *** MockAudioProcessor, the remaining methods *)

Module MockAudio.

Definition mock_inputs : list string := [
  "Hello, I need help with my account";
  "Can you help me with billing questions?";
  "I want to know about your services";
  "How do I cancel my subscription?";
  "What are your business hours?";
  "Can I speak to a manager?";
  "Thank you for your help"
].

Definition transcribe (self : MockAudioProcessor.t) (audio_data : list Byte.byte)
  : Result string :=
  Py.list_getitem mock_inputs
    (MockAudioProcessor.response_index self mod length mock_inputs).

Definition text_to_speech (text : string) : list Byte.byte :=
  String.list_byte_of_string "mock_audio_data".

End MockAudio.

(** *** VoiceAI, the remaining methods *)

Module Service.

(** What [__init__] finds on the host: environment variables, which
    optional packages were importable, and for each external loader the
    exception it raises, if any. *)
Record Host := {
  DEMO_MODE : option string;
  USE_LOCAL_MODELS : option string;
  PLIVO_AUTH_ID : option string;
  PLIVO_AUTH_TOKEN : option string;
  WHISPER_AVAILABLE : bool;
  TRANSFORMERS_AVAILABLE : bool;
  TTS_AVAILABLE : bool;
  PLIVO_AVAILABLE : bool;
  whisper_load : option Raised;
  llm_load : option Raised;
  tts_init : option Raised;
  rest_client : option Raised;
}.

(** A [try] around a loader whose [except] branch assigns [None]. *)
Definition load_or_none (failure : option Raised) : Attr :=
  match failure with
  | None => Loaded
  | Some _ => IsNone
  end.

(** The truth values of the model and the attributes [_init_demo_mode]
    assigns. *)
Definition _init_demo_mode (h : Host) : bool * Parts :=
  let whisper_model :=
    if WHISPER_AVAILABLE h && PyText.env_flag (USE_LOCAL_MODELS h)
    then load_or_none (whisper_load h)
    else IsNone in
  let llm :=
    if TRANSFORMERS_AVAILABLE h
    then match llm_load h with None => true | Some _ => false end
    else false in
  let tts_engine :=
    if TTS_AVAILABLE h then load_or_none (tts_init h) else IsNone in
  (llm, {| whisper_model := whisper_model;
           tts_engine := tts_engine;
           plivo_client := false |}).

(** [_load_models]: no [try], and no assignment for a package that is not
    there. *)
Definition _load_models (h : Host) : Raised + (bool * Attr * Attr) :=
  match (if WHISPER_AVAILABLE h then whisper_load h else None) with
  | Some e => inl e
  | None =>
      match (if TRANSFORMERS_AVAILABLE h then llm_load h else None) with
      | Some e => inl e
      | None =>
          match (if TTS_AVAILABLE h then tts_init h else None) with
          | Some e => inl e
          | None =>
              inr (TRANSFORMERS_AVAILABLE h,
                   if WHISPER_AVAILABLE h then Loaded else Unset,
                   if TTS_AVAILABLE h then Loaded else Unset)
          end
      end
  end.

Definition _init_production_mode (h : Host) : Raised + (bool * Parts) :=
  if negb (PLIVO_AVAILABLE h) then
    inl {| raised_class := "ImportError";
           raised_text := "Plivo package required for production mode" |}
  else if Py.not_opt (PLIVO_AUTH_ID h) || Py.not_opt (PLIVO_AUTH_TOKEN h) then
    inl {| raised_class := "ValueError";
           raised_text :=
             "PLIVO_AUTH_ID and PLIVO_AUTH_TOKEN required for production mode" |}
  else
    match rest_client h with
    | Some e => inl e
    | None =>
        match _load_models h with
        | inl e => inl e
        | inr (llm, whisper_model, tts_engine) =>
            inr (llm, {| whisper_model := whisper_model;
                         tts_engine := tts_engine;
                         plivo_client := true |})
        end
    end.

(** [VoiceAI.__init__]. *)
Definition construct (h : Host) : Raised + (VoiceAI.t * Parts) :=
  let demo := PyText.env_flag (DEMO_MODE h) in
  if demo then
    let '(llm, parts) := _init_demo_mode h in
    inr (VoiceAI.init demo llm, parts)
  else
    match _init_production_mode h with
    | inl e => inl e
    | inr (llm, parts) => inr (VoiceAI.init demo llm, parts)
    end.

(** The module-level [voice_ai]: [None] when the constructor raised. *)
Definition voice_ai (h : Host) : option (VoiceAI.t * Parts) :=
  match construct h with
  | inl _ => None
  | inr server => Some server
  end.

Definition sorry_reply : string := "Sorry, I didn't catch that.".

Definition transcribe_audio (out : Outside) (self : VoiceAI.t) (parts : Parts)
    (audio_data : list Byte.byte) : Result string :=
  if demo_mode self then
    MockAudio.transcribe (mock_processor self) audio_data
  else
    loaded ← attr_truth (whisper_model parts);
    if (loaded : bool) then
      match whisper out audio_data with
      | Ok text => Ok (Py.strip text)
      | Raise _ => Ok sorry_reply
      end
    else Ok sorry_reply.

Definition text_to_speech (out : Outside) (self : VoiceAI.t) (parts : Parts)
    (text : string) : Result (list Byte.byte) :=
  if demo_mode self && negb (PyText.env_flag (DEMO_ENABLE_TTS out)) then
    Ok (MockAudio.text_to_speech text)
  else
    loaded ← attr_truth (tts_engine parts);
    if (loaded : bool) then
      match tts_render out text with
      | Ok audio_data => Ok audio_data
      | Raise _ => Ok []
      end
    else Ok [].

(** The WebSocket address derived from the public address. *)
Definition ws_url (public_url : string) : string :=
  Py.replace "http" "ws" public_url +:+ "/ws/call".

Definition answer_xml (ws_url : string) : string :=
  "<?xml version=" +:+ dq +:+ "1.0" +:+ dq +:+ " encoding=" +:+ dq +:+ "UTF-8"
  +:+ dq +:+ "?>" +:+ nl +:+
  "<Response>" +:+ nl +:+
  "    <Stream bidirectional=" +:+ dq +:+ "true" +:+ dq +:+ " keepCallAlive="
  +:+ dq +:+ "true" +:+ dq +:+ " " +:+ nl +:+
  "            streamTimeout=" +:+ dq +:+ "86400" +:+ dq +:+ " contentType="
  +:+ dq +:+ "audio/x-l16" +:+ dq +:+ " " +:+ nl +:+
  "            sampleRate=" +:+ dq +:+ "8000" +:+ dq +:+ ">" +:+ ws_url
  +:+ "</Stream>" +:+ nl +:+
  "</Response>".

Definition make_outbound_call (out : Outside) (self : VoiceAI.t)
    (parts : Parts) (phone_number : string) : Raised + string :=
  if demo_mode self then
    inr ("demo_call_" +:+ Py.str_int (call_clock out))
  else if negb (plivo_client parts) then
    inl {| raised_class := "ValueError";
           raised_text := "Plivo not configured for production calls" |}
  else
    let public_url := PyText.getenv (PUBLIC_URL out) "http://localhost:8000" in
    plivo_create out (PLIVO_PHONE_NUMBER out) phone_number
      ("data:application/xml;charset=utf-8," +:+ answer_xml (ws_url public_url)).

End Service.

(** *** The routes *)

Record HTTPException := {
  status_code : nat;
  detail : string;
}.

Module DemoRequest.
Record t := {
  user_input : string;
  conversation_id : option string;
}.
End DemoRequest.

Module CallRequest.
Record t := {
  phone_number : string;
  message : option string;
}.
End CallRequest.

Module CallResponse.
Record t := {
  success : bool;
  call_id : string;
  demo_mode : bool;
  message : string;
}.
End CallResponse.

Module Api.

Section Routes.

(** [str(e)] for the exceptions of the conversation code. *)
Variable str_exception : Exception → string.

(** [POST /demo/chat].  The second component is the module-level [voice_ai]
    after the request.  The model of [process_demo_conversation] yields no
    state when it raises; the state before the request stands in for it
    there. *)
Definition demo_chat (voice_ai : option (VoiceAI.t * Parts)) (env : Env)
    (request : DemoRequest.t)
  : (HTTPException + DemoResult) * option (VoiceAI.t * Parts) :=
  match voice_ai with
  | None =>
      (inl {| status_code := 500; detail := "Voice AI not initialized" |},
       voice_ai)
  | Some (self, parts) =>
      if negb (VoiceAI.demo_mode self) then
        (inl {| status_code := 400; detail := "Demo mode not enabled" |},
         voice_ai)
      else
        match process_demo_conversation env self
                (DemoRequest.user_input request)
                (DemoRequest.conversation_id request) with
        | Ok (result, self') => (inr result, Some (self', parts))
        | Raise e =>
            (inl {| status_code := 500;
                    detail := "Chat error: " +:+ str_exception e |},
             voice_ai)
        end
  end.

End Routes.

(** [POST /call]. *)
Definition make_call (voice_ai : option (VoiceAI.t * Parts)) (out : Outside)
    (request : CallRequest.t) : HTTPException + CallResponse.t :=
  match voice_ai with
  | None =>
      inl {| status_code := 500; detail := "Voice AI not initialized" |}
  | Some (self, parts) =>
      match Service.make_outbound_call out self parts
              (CallRequest.phone_number request) with
      | inr call_id =>
          inr {| CallResponse.success := true;
                 CallResponse.call_id := call_id;
                 CallResponse.demo_mode := VoiceAI.demo_mode self;
                 CallResponse.message :=
                   if VoiceAI.demo_mode self then "Demo call simulated"
                   else "Call initiated" |}
      | inl e =>
          inl {| status_code := 500;
                 detail := "Call failed: " +:+ raised_text e |}
      end
  end.

End Api.

(** *** The callers *)

Module Client.

Section Loop.

Variable str_exception : Exception → string.

(** The loop of [test_api_endpoints] and [interactive_chat] over the
    messages, each with the server's reading of the outside world while it
    is served: the id of the last answer is sent along with the next
    message. *)
Fixpoint chat_loop (voice_ai : option (VoiceAI.t * Parts))
    (conversation_id : option string) (messages : list (string * Env))
  : list (HTTPException + DemoResult) * option string
    * option (VoiceAI.t * Parts) :=
  match messages with
  | [] => ([], conversation_id, voice_ai)
  | (message, env) :: rest =>
      let payload :=
        {| DemoRequest.user_input := message;
           DemoRequest.conversation_id :=
             if Py.not_opt conversation_id then None else conversation_id |} in
      let '(response, voice_ai1) :=
        Api.demo_chat str_exception voice_ai env payload in
      let conversation_id1 :=
        match response with
        | inr data => Some (VoiceAI.conversation_id data)
        | inl _ => conversation_id
        end in
      let '(responses, conversation_id2, voice_ai2) :=
        chat_loop voice_ai1 conversation_id1 rest in
      (response :: responses, conversation_id2, voice_ai2)
  end.

(** [test_conversation_continuity]: whether its assertions hold.  Reading
    ["conversation_id"] from an error response raises, which fails the
    test. *)
Definition test_conversation_continuity
    (voice_ai : option (VoiceAI.t * Parts)) (env1 env2 : Env) : bool :=
  match Api.demo_chat str_exception voice_ai env1
          {| DemoRequest.user_input := "Hello";
             DemoRequest.conversation_id := None |} with
  | (inr data1, voice_ai1) =>
      let conversation_id := VoiceAI.conversation_id data1 in
      match Api.demo_chat str_exception voice_ai1 env2
              {| DemoRequest.user_input := "Can you help me?";
                 DemoRequest.conversation_id := Some conversation_id |} with
      | (inr data2, _) =>
          bool_decide (VoiceAI.conversation_id data2 = conversation_id)
          && (4 <=? length (conversation_history data2))
      | (inl _, _) => false
      end
  | (inl _, _) => false
  end.

End Loop.

End Client.

(** *** The shape of a prompt history *)

(** A prompt history made of exchanges: a customer line, followed or not by
    an assistant line of at least three characters. *)
Inductive exchanges : list string → Prop :=
  | exchanges_nil : exchanges []
  | exchanges_unanswered h u :
      exchanges h → exchanges (h ++ ["Customer: " +:+ u])
  | exchanges_answered h u r :
      exchanges h → 3 ≤ String.length r →
      exchanges (h ++ ["Customer: " +:+ u; "Assistant: " +:+ r]).

Definition is_assistant_line (line : string) : bool :=
  String.prefix "Assistant: " line.

Definition is_customer_line (line : string) : bool :=
  String.prefix "Customer: " line.

(** The prompt line that renders a turn of a transcript. *)
Definition line_of_turn (m : gmap string string) : string :=
  match m !! "speaker", m !! "message" with
  | Some speaker, Some text =>
      (if decide (speaker = "user") then "Customer: " else "Assistant: ")
      +:+ text
  | _, _ => ""
  end.

(** The session a request generates for, and a chat request whose model
    returns on every prompt. *)
Definition generation_id (c : Call) : option string :=
  match c with
  | ProcessDemo env _ cid => Some (resolve_id env cid)
  | GenerateResponse _ _ cid => cid
  end.

Definition chat_without_raise (c : Call) : Prop :=
  match c with
  | ProcessDemo env _ _ => ∀ prompt, ∃ decoded, llm env prompt = Ok decoded
  | GenerateResponse _ _ _ => False
  end.

(** The reply of the model-backed generator, and the lines it adds to the
    prompt history, by the outcome of the model. *)
Definition llm_reply (outcome : Result string) : string :=
  match outcome with
  | Ok decoded => clean_response decoded
  | Raise _ => apology_reply
  end.

Definition llm_lines (outcome : Result string) (user_input : string)
  : list string :=
  match outcome with
  | Ok decoded =>
      ["Customer: " +:+ user_input;
       "Assistant: " +:+ clean_response decoded]
  | Raise _ => ["Customer: " +:+ user_input]
  end.

(** The text a request asks the generator about. *)
Definition generation_text (c : Call) : string :=
  match c with
  | ProcessDemo _ user_input _ => user_input
  | GenerateResponse _ user_input _ => user_input
  end.

Definition generation_env (c : Call) : Env :=
  match c with
  | ProcessDemo env _ _ => env
  | GenerateResponse env _ _ => env
  end.

(** Every stored prompt history is made of exchanges. *)
Definition histories_shaped (self : VoiceAI.t) : Prop :=
  ∀ id cd, active_calls self !! id = Some cd → exchanges (history cd).

(** Whether [old] occurs in [s]. *)
Fixpoint occurs (old s : string) : bool :=
  String.prefix old s
  || match s with
     | EmptyString => false
     | String _ s' => occurs old s'
     end.

(** A host and an outside world for examples. *)
Definition host_bare : Service.Host :=
  {| Service.DEMO_MODE := Some "false";
     Service.USE_LOCAL_MODELS := None;
     Service.PLIVO_AUTH_ID := Some "MAXXXXXXXXXXXXXXXXXX";
     Service.PLIVO_AUTH_TOKEN := Some "token";
     Service.WHISPER_AVAILABLE := false;
     Service.TRANSFORMERS_AVAILABLE := false;
     Service.TTS_AVAILABLE := false;
     Service.PLIVO_AVAILABLE := true;
     Service.whisper_load := None;
     Service.llm_load := None;
     Service.tts_init := None;
     Service.rest_client := None |}.

Definition host_demo : Service.Host :=
  {| Service.DEMO_MODE := Some "True";
     Service.USE_LOCAL_MODELS := None;
     Service.PLIVO_AUTH_ID := None;
     Service.PLIVO_AUTH_TOKEN := None;
     Service.WHISPER_AVAILABLE := true;
     Service.TRANSFORMERS_AVAILABLE := false;
     Service.TTS_AVAILABLE := true;
     Service.PLIVO_AVAILABLE := false;
     Service.whisper_load :=
       Some {| raised_class := "RuntimeError";
               raised_text := "download failed" |};
     Service.llm_load := None;
     Service.tts_init := None;
     Service.rest_client := None |}.

Definition outside_quiet : Outside :=
  {| whisper := λ _, Ok "  hello there  ";
     tts_render := λ _, Raise (ExternalError "no audio device");
     plivo_create := λ _ _ _,
       inl {| raised_class := "PlivoRestError";
              raised_text := "authentication failed" |};
     call_clock := 1700000000;
     DEMO_ENABLE_TTS := None;
     PUBLIC_URL := None;
     PLIVO_PHONE_NUMBER := None |}.

(** * Properties *)

(** ** Python primitives *)

Section PyFacts.

Lemma not_str_true s : Py.not_str s = true ↔ s = "".
Proof. destruct s; simpl; split; congruence. Qed.

Lemma lstrip_length s : String.length (Py.lstrip s) ≤ String.length s.
Proof.
  induction s as [|c s IH]; simpl; [lia|].
  destruct (Py.isspace c); simpl; lia.
Qed.

Lemma rstrip_length s : String.length (Py.rstrip s) ≤ String.length s.
Proof.
  induction s as [|c s IH]; simpl; [lia|].
  destruct (Py.rstrip s) eqn:E; [destruct (Py.isspace c)|]; simpl in *; lia.
Qed.

Lemma strip_length s : String.length (Py.strip s) ≤ String.length s.
Proof.
  unfold Py.strip.
  etrans; [apply rstrip_length | apply lstrip_length].
Qed.

Lemma prefix_length old s :
  String.prefix old s = true → String.length old ≤ String.length s.
Proof.
  revert s. induction old as [|a old IH]; intros [|b s]; simpl;
    try lia; try discriminate.
  destruct (Ascii.ascii_dec a b); [|discriminate].
  intros H. apply IH in H. lia.
Qed.

(** A string shorter than [old] holds no occurrence of it. *)
Lemma replace_short old new s :
  String.length s < String.length old → Py.replace old new s = s.
Proof.
  unfold Py.replace. induction s as [|c s IH]; intros Hlt; [done|].
  cbn [Py.replace_go].
  destruct (String.prefix old (String c s)) eqn:E.
  - apply prefix_length in E. lia.
  - rewrite IH; [done|]. cbn [String.length] in Hlt. lia.
Qed.

Lemma slice_from_neg {A} (k : nat) (l : list A) :
  0 < k → Py.slice_from (- Z.of_nat k) l = drop (length l - k) l.
Proof.
  intros Hk. unfold Py.slice_from.
  destruct (Z.ltb_spec (- Z.of_nat k) 0); [|lia].
  f_equal. lia.
Qed.

Lemma drop_suffix_of {A} (n : nat) (l : list A) : drop n l `suffix_of` l.
Proof. exists (take n l). by rewrite take_drop. Qed.

(** [l[-k:]] for [k >= 1]: the last [min k (len l)] elements, in order. *)
Lemma slice_from_neg_spec {A} (k : nat) (l : list A) :
  0 < k →
  Py.slice_from (- Z.of_nat k) l `suffix_of` l
  ∧ length (Py.slice_from (- Z.of_nat k) l) = k `min` length l.
Proof.
  intros Hk. rewrite slice_from_neg by done. split.
  - apply drop_suffix_of.
  - rewrite length_drop. lia.
Qed.

(** The window keeps the last element of a non-empty list. *)
Lemma slice_from_neg_last {A} (k : nat) (l : list A) (x : A) :
  0 < k → last (Py.slice_from (- Z.of_nat k) (l ++ [x])) = Some x.
Proof.
  intros Hk. rewrite slice_from_neg by done.
  rewrite length_app. simpl.
  replace (length l + 1 - k) with (length l - (k - 1)) by lia.
  rewrite drop_app_le by lia. apply last_snoc.
Qed.

End PyFacts.

(** ** The generators *)

Section Generators.

Lemma responses_length : length MockAudioProcessor.responses = 7.
Proof. reflexivity. Qed.

Lemma responses_nonempty response :
  response ∈ MockAudioProcessor.responses → response ≠ "".
Proof.
  unfold MockAudioProcessor.responses. intros Hin.
  repeat (apply elem_of_cons in Hin as [-> | Hin]; [discriminate|]).
  by apply elem_of_nil in Hin.
Qed.

(** The mock generator never raises: the index stays inside the table. *)
Lemma mock_generate_response_ok (mp : MockAudioProcessor.t) user_input :
  ∃ response,
    MockAudioProcessor.responses
      !! (MockAudioProcessor.response_index mp mod 7) = Some response
    ∧ MockAudioProcessor.generate_response mp user_input
      = Ok (response,
            {| MockAudioProcessor.response_index :=
                 MockAudioProcessor.response_index mp + 1 |}).
Proof.
  destruct (lookup_lt_is_Some_2 MockAudioProcessor.responses
              (MockAudioProcessor.response_index mp mod 7)) as [r Hr].
  { rewrite responses_length. apply Nat.mod_upper_bound. lia. }
  exists r. split; [done|].
  unfold MockAudioProcessor.generate_response, Py.list_getitem.
  rewrite responses_length, Hr. reflexivity.
Qed.

Lemma clean_response_nonempty decoded : clean_response decoded ≠ "".
Proof.
  unfold clean_response.
  destruct (Py.not_str _) eqn:E; simpl; [discriminate|].
  destruct (_ <? 3); [discriminate|].
  intros H. apply not_str_true in H. congruence.
Qed.

(** A continuation of fewer than three characters is replaced. *)
Lemma clean_response_short decoded :
  String.length decoded < 3 → clean_response decoded = fallback_reply.
Proof.
  intros Hlen. unfold clean_response.
  pose proof (strip_length decoded) as Hs.
  rewrite replace_short by (simpl; lia).
  destruct (Py.not_str _); simpl; [done|].
  destruct (Nat.ltb_spec (String.length (Py.strip decoded)) 3); [done|lia].
Qed.

(** What the [try] block does, by the outcome of the model. *)
Lemma _generate_llm_response_try_eq env self user_input id :
  let history1 := history_of self id ++ ["Customer: " +:+ user_input] in
  let calls1 := <[id := {| history := history1 |}]> (active_calls self) in
  let prompt := build_prompt (recent_history history1) in
  _generate_llm_response_try env self user_input id =
    match run_llm env self prompt with
    | Raise e => (Raise e, set_active_calls calls1 self)
    | Ok decoded =>
        (Ok (clean_response decoded),
         set_active_calls
           (<[id := {| history :=
                         history1 ++
                         ["Assistant: " +:+ clean_response decoded] |}]>
              (active_calls self)) self)
    end.
Proof.
  intros history1 calls1 prompt.
  unfold _generate_llm_response_try, Py.getitem, history_of in *.
  subst history1 calls1 prompt.
  destruct (active_calls self !! id) as [cd|] eqn:E.
  - rewrite E. unfold run_llm. simpl.
    destruct (llm_loaded self); [|done].
    destruct (llm env _); [|done].
    by rewrite insert_insert_eq.
  - rewrite lookup_insert_eq. unfold run_llm. simpl.
    rewrite !insert_insert_eq.
    destruct (llm_loaded self); [|done].
    destruct (llm env _); [|done].
    by rewrite insert_insert_eq.
Qed.

(** The model-backed generator leaves the transcripts, the mode flags and
    the mock processor alone, and its reply is never empty. *)
Lemma _generate_llm_response_frame env self user_input id :
  let '(response, self') := _generate_llm_response env self user_input id in
  response ≠ ""
  ∧ demo_conversations self' = demo_conversations self
  ∧ demo_mode self' = demo_mode self
  ∧ llm_loaded self' = llm_loaded self
  ∧ mock_processor self' = mock_processor self.
Proof.
  unfold _generate_llm_response.
  rewrite _generate_llm_response_try_eq.
  destruct (run_llm env self _); simpl;
    split_and!; try done; apply clean_response_nonempty.
Qed.

(** [generate_response] always returns, with a non-empty reply, and does
    not touch the transcripts. *)
Lemma generate_response_ok env self user_input id :
  ∃ response self',
    generate_response env self user_input id = Ok (response, self')
    ∧ response ≠ ""
    ∧ demo_conversations self' = demo_conversations self
    ∧ demo_mode self' = demo_mode self
    ∧ llm_loaded self' = llm_loaded self.
Proof.
  unfold generate_response.
  pose proof (_generate_llm_response_frame env self user_input id) as Hllm.
  destruct (_generate_llm_response env self user_input id) as [r s'].
  destruct Hllm as (Hne & Hdc & Hdm & Hll & _).
  destruct (demo_mode self) eqn:Hd; [destruct (llm_loaded self) eqn:Hl|].
  - by exists r, s'.
  - destruct (mock_generate_response_ok (mock_processor self) user_input)
      as (r' & Hr' & ->).
    eexists _, _. split; [reflexivity|].
    split_and!; try done.
    apply responses_nonempty. by eapply list_elem_of_lookup_2.
  - by exists r, s'.
Qed.

End Generators.

(** ** The primitives on concrete inputs *)

Section Examples.

Example strip_both_ends : Py.strip "  Assistant: hi  " = "Assistant: hi".
Proof. reflexivity. Qed.

Example replace_every_occurrence :
  Py.replace "Assistant:" "" "xAssistant:Assistant: hiAssistant"
  = "x hiAssistant".
Proof. reflexivity. Qed.

Example slice_last_two : Py.slice_from (-2) [1; 2; 3] = [2; 3].
Proof. reflexivity. Qed.

Example slice_short_list : Py.slice_from (-6) [1; 2; 3] = [1; 2; 3].
Proof. reflexivity. Qed.

(** [-0] is [0]: the slice [l[-0:]] is the whole list, not an empty
    window. *)
Example slice_minus_zero : Py.slice_from (-0) [1; 2; 3] = [1; 2; 3].
Proof. reflexivity. Qed.

Example join_lines : Py.join nl ["a"; "b"; "c"] = "a" +:+ nl +:+ "b" +:+ nl +:+ "c".
Proof. reflexivity. Qed.

Example clean_response_fluent :
  clean_response " Sure, I can help with that. "
  = "Sure, I can help with that.".
Proof. reflexivity. Qed.

Example clean_response_label_only :
  clean_response "  Assistant:  " = fallback_reply.
Proof. reflexivity. Qed.

(** Removing the labels can leave blanks only; three of them pass the
    length test. *)
Example clean_response_blank :
  clean_response "Assistant:   Assistant:" = "   ".
Proof. reflexivity. Qed.

Example minted_id :
  resolve_id env_empty None = "demo_1700000000".
Proof. reflexivity. Qed.

End Examples.

(** ** One chat request *)

Section OneRequest.

Lemma lookup_message_dict_message ts sp msg :
  message_dict ts sp msg !! "message" = Some msg.
Proof. reflexivity. Qed.

Lemma lookup_message_dict_speaker ts sp msg :
  message_dict ts sp msg !! "speaker" = Some sp.
Proof. reflexivity. Qed.

Lemma lookup_message_dict_type ts sp msg :
  message_dict ts sp msg !! "type" = Some "text".
Proof. reflexivity. Qed.

Lemma lookup_message_dict_timestamp ts sp msg :
  message_dict ts sp msg !! "timestamp" = Some ts.
Proof. reflexivity. Qed.

Lemma line_of_user_turn ts text :
  line_of_turn (message_dict ts "user" text) = "Customer: " +:+ text.
Proof. reflexivity. Qed.

Lemma line_of_ai_turn ts text :
  line_of_turn (message_dict ts "ai" text) = "Assistant: " +:+ text.
Proof. reflexivity. Qed.

Lemma transcript_set_insert self self0 id id' t :
  transcript
    (set_demo_conversations (<[id := t]> (demo_conversations self)) self0) id'
  = if decide (id = id') then t else transcript self id'.
Proof.
  unfold transcript. simpl. rewrite lookup_insert.
  by destruct (decide (id = id')).
Qed.

(** The whole effect of one chat request: it always returns; the user
    turn and the assistant turn are appended, in this order, to the
    transcript filed under the resolved id; the returned history is that
    transcript. *)
Lemma process_demo_conversation_eq env self user_input cid :
  let id := resolve_id env cid in
  let um := message_dict (now_user env) "user" user_input in
  let t := transcript self id in
  ∃ response self2,
    generate_response env
      (set_demo_conversations
         (<[id := t ++ [um]]> (demo_conversations self)) self)
      user_input (Some id) = Ok (response, self2)
    ∧ response ≠ ""
    ∧ demo_mode self2 = demo_mode self
    ∧ llm_loaded self2 = llm_loaded self
    ∧ process_demo_conversation env self user_input cid =
      let am := message_dict (now_ai env) "ai" response in
      Ok ({| conversation_id := id;
             user_message := um;
             ai_response := am;
             conversation_history := t ++ [um; am] |},
          set_demo_conversations
            (<[id := t ++ [um; am]]> (demo_conversations self)) self2).
Proof.
  intros id um t.
  set (dc1 := <[id := t ++ [um]]> (demo_conversations self)).
  destruct (generate_response_ok env (set_demo_conversations dc1 self)
              user_input (Some id)) as (r & s2 & Hg & Hne & Hdc & Hdm & Hll).
  exists r, s2. split_and!; [done..|].
  unfold process_demo_conversation. fold id. fold um.
  assert (append_at id um
            match demo_conversations self !! id with
            | Some _ => demo_conversations self
            | None => <[id := []]> (demo_conversations self)
            end = Ok dc1) as ->.
  { unfold append_at, Py.getitem, dc1, t, transcript.
    destruct (demo_conversations self !! id) as [l|] eqn:E.
    - rewrite E. reflexivity.
    - rewrite lookup_insert_eq. simpl. by rewrite insert_insert_eq. }
  simpl. rewrite Hg. simpl. rewrite Hdc. simpl.
  unfold append_at, Py.getitem, dc1. rewrite lookup_insert_eq. simpl.
  rewrite lookup_insert_eq, insert_insert_eq, <- app_assoc. reflexivity.
Qed.

End OneRequest.

(** ** Sequences of requests *)

Section Runs.

(** One request always returns, answers the request, and extends exactly
    the transcript it reports on. *)
Lemma step_ok self c :
  ∃ o self',
    step self c = Ok (o, self')
    ∧ answers c o
    ∧ (∀ id, transcript self' id = transcript self id ++ recorded_by id o)
    ∧ (∀ r, o = OutDemo r →
            demo_conversations self' !! conversation_id r
            = Some (conversation_history r))
    ∧ demo_mode self' = demo_mode self
    ∧ llm_loaded self' = llm_loaded self.
Proof.
  destruct c as [env ui cid | env ui cid]; simpl.
  - destruct (process_demo_conversation_eq env self ui cid)
      as (resp & s2 & Hg & Hne & Hdm & Hll & ->).
    eexists _, _. split; [reflexivity|]. simpl. split_and!.
    + done.
    + done.
    + by exists resp.
    + intros id. rewrite transcript_set_insert.
      unfold recorded_by. simpl.
      destruct (decide (resolve_id env cid = id)) as [->|Hid].
      * done.
      * by rewrite app_nil_r.
    + intros r [= <-]. simpl. by rewrite lookup_insert_eq.
    + done.
    + done.
  - destruct (generate_response_ok env self ui cid)
      as (resp & s2 & -> & Hne & Hdc & Hdm & Hll).
    eexists _, _. split; [reflexivity|]. simpl. split_and!; try done.
    intros id. unfold transcript. by rewrite Hdc, app_nil_r.
Qed.

Lemma run_steps self calls :
  ∃ outs self', run self calls = Ok (outs, self')
                ∧ steps self calls outs self'.
Proof.
  revert self. induction calls as [|c calls IH]; intros self.
  - exists [], self. split; [done | constructor].
  - destruct (step_ok self c) as (o & s1 & Hs & _).
    destruct (IH s1) as (os & s2 & Hr & Hsteps).
    exists (o :: os), s2. split.
    + simpl. rewrite Hs. simpl. rewrite Hr. reflexivity.
    + by econstructor.
Qed.

Lemma steps_run self calls outs self' :
  steps self calls outs self' → run self calls = Ok (outs, self').
Proof.
  induction 1 as [|s c o s1 cs os s2 Hs _ IH]; [done|].
  simpl. rewrite Hs. simpl. rewrite IH. reflexivity.
Qed.

Lemma steps_answers self calls outs self' :
  steps self calls outs self' → Forall2 answers calls outs.
Proof.
  induction 1 as [|s c o s1 cs os s2 Hs _ IH]; [constructor|].
  constructor; [|done].
  destruct (step_ok s c) as (o' & s1' & Hs' & Ha & _). congruence.
Qed.

(** A transcript grows by exactly the turns recorded on it, in order. *)
Lemma steps_transcript self calls outs self' :
  steps self calls outs self' →
  ∀ id, transcript self' id = transcript self id ++ recorded_on id outs.
Proof.
  induction 1 as [|s c o s1 cs os s2 Hs _ IH]; intros id.
  - by rewrite app_nil_r.
  - destruct (step_ok s c) as (o' & s1' & Hs' & _ & Ht & _).
    rewrite Hs in Hs'. injection Hs' as <- <-.
    rewrite IH, Ht, <- app_assoc. reflexivity.
Qed.

(** The history a request returns is the whole transcript at that
    moment. *)
Lemma steps_history self calls outs self' :
  steps self calls outs self' →
  ∀ i r, outs !! i = Some (OutDemo r) →
    conversation_history r =
      transcript self (conversation_id r)
      ++ recorded_on (conversation_id r) (take (S i) outs).
Proof.
  induction 1 as [|s c o s1 cs os s2 Hs _ IH]; intros i r Hi; [done|].
  destruct (step_ok s c) as (o' & s1' & Hs' & _ & Ht & Hh & _).
  rewrite Hs in Hs'. injection Hs' as <- <-.
  destruct i as [|i]; simpl in Hi.
  - injection Hi as ->. specialize (Hh r eq_refl).
    specialize (Ht (conversation_id r)).
    unfold transcript in Ht at 1. rewrite Hh in Ht. simpl in Ht.
    rewrite Ht. unfold recorded_on. simpl. by rewrite app_nil_r.
  - rewrite (IH i r Hi), Ht, <- app_assoc. reflexivity.
Qed.

Lemma recorded_on_length id outs :
  length (recorded_on id outs) = 2 * requests_on id outs.
Proof.
  unfold recorded_on, requests_on.
  induction outs as [|o outs IH]; simpl; [done|].
  rewrite length_app. destruct o as [r|]; simpl; [|lia].
  destruct (decide (conversation_id r = id)) as [E|E].
  - rewrite bool_decide_true by done. simpl. lia.
  - rewrite bool_decide_false by done. simpl. lia.
Qed.

Lemma requests_on_submitted id calls outs :
  Forall2 answers calls outs → requests_on id outs = submitted_on id calls.
Proof.
  unfold requests_on, submitted_on.
  induction 1 as [|c o cs os Ha _ IH]; simpl; [done|].
  destruct c as [env ui cid | env ui cid], o as [r | resp]; simpl in *;
    try done.
  destruct Ha as (-> & _).
  destruct (bool_decide (resolve_id env cid = id)); simpl; by rewrite IH.
Qed.

End Runs.

(** ** Which generator answers *)

Section Paths.

Lemma generate_response_llm env self user_input id :
  uses_llm self = true →
  generate_response env self user_input id
  = Ok (_generate_llm_response env self user_input id).
Proof.
  unfold uses_llm, generate_response.
  destruct (demo_mode self), (llm_loaded self); simpl; done.
Qed.

Lemma generate_response_mock env self user_input id :
  demo_mode self = true → llm_loaded self = false →
  ∃ response,
    MockAudioProcessor.responses
      !! (MockAudioProcessor.response_index (mock_processor self) mod 7)
    = Some response
    ∧ generate_response env self user_input id
      = Ok (response,
            set_mock_processor
              {| MockAudioProcessor.response_index :=
                   MockAudioProcessor.response_index (mock_processor self)
                   + 1 |} self).
Proof.
  intros Hd Hl. unfold generate_response. rewrite Hd, Hl.
  destruct (mock_generate_response_ok (mock_processor self) user_input)
    as (r & Hr & ->).
  by exists r.
Qed.

(** The reply and the prompt history of the model-backed generator, by the
    outcome of the model on the prompt. *)
Lemma _generate_llm_response_eq env self user_input id :
  let history1 := history_of self id ++ ["Customer: " +:+ user_input] in
  ∃ self',
    _generate_llm_response env self user_input id =
      (match run_llm env self (prompt_for self id user_input) with
       | Ok decoded => clean_response decoded
       | Raise _ => apology_reply
       end, self')
    ∧ history_of self' id =
      match run_llm env self (prompt_for self id user_input) with
      | Ok decoded =>
          history1 ++ ["Assistant: " +:+ clean_response decoded]
      | Raise _ => history1
      end.
Proof.
  intros history1. unfold _generate_llm_response, prompt_for.
  rewrite _generate_llm_response_try_eq. fold history1.
  destruct (run_llm env self _); eexists; (split; [reflexivity|]);
    unfold history_of; simpl; by rewrite lookup_insert_eq.
Qed.

Lemma resolve_id_nonempty env cid : resolve_id env cid ≠ "".
Proof.
  unfold resolve_id. destruct cid as [[|a c]|]; simpl; discriminate.
Qed.

Lemma resolve_id_absent env cid :
  Py.not_opt cid = true →
  resolve_id env cid = "demo_" +:+ Py.str_int (epoch_seconds env).
Proof. destruct cid as [[|a c]|]; simpl; done. Qed.

Lemma resolve_id_given env id : id ≠ "" → resolve_id env (Some id) = id.
Proof. destruct id; simpl; done. Qed.

(** Distinct seconds give distinct minted ids. *)
Lemma minted_id_inj (a b : Z) :
  "demo_" +:+ Py.str_int a = "demo_" +:+ Py.str_int b → a = b.
Proof.
  unfold Py.str_int. intros H.
  apply (inj (String.append "demo_")) in H.
  exact (pretty_Z_inj _ _ H).
Qed.

(** No request removes a session. *)
Lemma steps_sessions_kept self calls outs self' :
  steps self calls outs self' →
  ∀ id, is_Some (demo_conversations self !! id) →
        is_Some (demo_conversations self' !! id).
Proof.
  induction 1 as [|s c o s1 cs os s2 Hs _ IH]; intros id Hid; [done|].
  apply IH. clear IH.
  destruct c as [env ui cid | env ui cid]; simpl in Hs.
  - destruct (process_demo_conversation_eq env s ui cid)
      as (resp & s' & _ & _ & _ & _ & Hp).
    rewrite Hp in Hs. simpl in Hs. injection Hs as <- <-. simpl.
    rewrite lookup_insert. by case_decide.
  - destruct (generate_response_ok env s ui cid)
      as (resp & s' & Hg & _ & Hdc & _).
    rewrite Hg in Hs. simpl in Hs. injection Hs as <- <-.
    by rewrite Hdc.
Qed.

End Paths.

(** The assistant turn of a chat request answered by the model-backed
    generator. *)
Lemma process_demo_conversation_llm env self user_input cid :
  uses_llm self = true →
  let id := resolve_id env cid in
  ∃ r self',
    process_demo_conversation env self user_input cid = Ok (r, self')
    ∧ conversation_id r = id
    ∧ ai_response r =
      message_dict (now_ai env) "ai"
        match run_llm env self (prompt_for self (Some id) user_input) with
        | Ok decoded => clean_response decoded
        | Raise _ => apology_reply
        end
    ∧ history_of self' (Some id) =
      match run_llm env self (prompt_for self (Some id) user_input) with
      | Ok decoded =>
          history_of self (Some id)
          ++ ["Customer: " +:+ user_input;
              "Assistant: " +:+ clean_response decoded]
      | Raise _ => history_of self (Some id) ++ ["Customer: " +:+ user_input]
      end.
Proof.
  intros Hllm id.
  destruct (process_demo_conversation_eq env self user_input cid)
    as (resp & s2 & Hg & _ & _ & _ & Hp).
  fold id in Hg, Hp.
  rewrite generate_response_llm in Hg by done.
  destruct (_generate_llm_response_eq env
              (set_demo_conversations
                 (<[id := transcript self id
                          ++ [message_dict (now_user env) "user" user_input]]>
                    (demo_conversations self)) self)
              user_input (Some id)) as (s2' & Heq & Hh).
  rewrite Heq in Hg. injection Hg as <- <-.
  eexists _, _. split; [exact Hp|]. simpl. split_and!; [done..|].
  unfold history_of in *. simpl in *. rewrite Hh.
  destruct (run_llm _ _ _); [|done].
  by rewrite <- app_assoc.
Qed.

(** * The claims *)

(** C1. Whatever the state of the store and whatever requests follow, every
    request returns; each transcript afterwards is the transcript before
    followed by exactly the turns recorded on that session, in the order of
    recording (two per chat request filed under its id, nothing removed or
    reordered); and the
    [conversation_history] handed back by the [i]-th request is the
    transcript of its session up to and including that request. *)
Theorem C1_full_transcript_is_append_only
    (self : VoiceAI.t) (calls : list Call) :
  ∃ outs self',
    run self calls = Ok (outs, self')
    ∧ Forall2 answers calls outs
    ∧ (∀ id, transcript self' id = transcript self id ++ recorded_on id outs)
    ∧ (∀ id, length (transcript self' id)
             = length (transcript self id) + 2 * submitted_on id calls)
    ∧ (∀ i r, outs !! i = Some (OutDemo r) →
         conversation_history r
         = transcript self (conversation_id r)
           ++ recorded_on (conversation_id r) (take (S i) outs)).
Proof.
  destruct (run_steps self calls) as (outs & self' & Hrun & Hsteps).
  exists outs, self'. split_and!.
  - done.
  - by eapply steps_answers.
  - by eapply steps_transcript.
  - intros id. erewrite steps_transcript by done.
    rewrite length_app, recorded_on_length.
    erewrite requests_on_submitted; [done|].
    by eapply steps_answers.
  - by eapply steps_history.
Qed.

(** C1 on a fresh process: "Hello", then "Can you help?" under the same
    id.  The second request returns all four turns, in order. *)
Lemma C1_witness :
  ∃ r1 r2 self',
    run (VoiceAI.init true false)
      [ProcessDemo env_fluent "Hello" (Some "s1");
       ProcessDemo env_empty "Can you help?" (Some "s1")]
    = Ok ([OutDemo r1; OutDemo r2], self')
    ∧ conversation_history r2
      = [user_message r1; ai_response r1; user_message r2; ai_response r2].
Proof.
  destruct (C1_full_transcript_is_append_only (VoiceAI.init true false)
              [ProcessDemo env_fluent "Hello" (Some "s1");
               ProcessDemo env_empty "Can you help?" (Some "s1")])
    as (outs & self' & Hrun & Hans & _ & _ & Hhist).
  apply Forall2_cons_inv_l in Hans as (o1 & outs1 & Ha1 & Hans & ->).
  apply Forall2_cons_inv_l in Hans as (o2 & outs2 & Ha2 & Hans & ->).
  apply Forall2_nil_inv_l in Hans as ->.
  destruct o1 as [r1|]; [|contradiction].
  destruct o2 as [r2|]; [|contradiction].
  destruct Ha1 as (Hid1 & _). destruct Ha2 as (Hid2 & _).
  exists r1, r2, self'. split; [exact Hrun|].
  rewrite (Hhist 1 r2 eq_refl). unfold recorded_on. simpl.
  rewrite Hid1, Hid2. reflexivity.
Defined.

(** C2, the part that fails.  The context is not cut from the transcript.
    On a session whose first request met a raising model, the second
    request builds its context when the transcript holds three turns (the
    user turn, the apology, the user turn just recorded), yet the context
    has the two customer lines only: not [min 6 3] entries, and not a
    suffix of the transcript, whose middle turn it skips. *)
Lemma C2_context_is_not_cut_from_transcript :
  ∃ o1 self1 r2 self2,
    step (VoiceAI.init true true)
      (ProcessDemo env_raising "one" (Some "s1")) = Ok (o1, self1)
    ∧ process_demo_conversation env_fluent self1 "two" (Some "s1")
      = Ok (r2, self2)
    ∧ let transcript1 := transcript self1 "s1" ++ [user_message r2] in
      let context :=
        recent_history (history_of self1 (Some "s1") ++ ["Customer: two"]) in
      line_of_turn <$> transcript1
      = ["Customer: one";
         "Assistant: I apologize for the technical difficulty. How can I assist you?";
         "Customer: two"]
      ∧ context = ["Customer: one"; "Customer: two"]
      ∧ length context ≠ 6 `min` length transcript1
      ∧ ¬ context `suffix_of` (line_of_turn <$> transcript1)
      ∧ ai_response r2 !! "message"
        = Some (llm_reply (run_llm env_fluent self1 (build_prompt context))).
Proof.
  destruct (step_ok (VoiceAI.init true true)
              (ProcessDemo env_raising "one" (Some "s1")))
    as (o1 & self1 & Hs & Hans & Htr & _ & _ & Hl).
  destruct (process_demo_conversation_llm env_raising (VoiceAI.init true true)
              "one" (Some "s1") eq_refl) as (r1 & s1 & H1 & _ & Ha1 & Hh1).
  assert (o1 = OutDemo r1 ∧ self1 = s1) as [-> ->].
  { unfold step in Hs. rewrite H1 in Hs. by injection Hs as <- <-. }
  destruct Hans as (Hid1 & Hum1 & _).
  assert (uses_llm s1 = true) as Hllm.
  { unfold uses_llm. rewrite Hl. apply orb_true_r. }
  destruct (process_demo_conversation_llm env_fluent s1 "two" (Some "s1") Hllm)
    as (r2 & self2 & H2 & _ & Ha2 & _).
  destruct (process_demo_conversation_eq env_fluent s1 "two" (Some "s1"))
    as (resp & s2 & _ & _ & _ & _ & Hp).
  assert (user_message r2 = message_dict (now_user env_fluent) "user" "two")
    as Hum2.
  { rewrite Hp in H2. by injection H2 as <- _. }
  assert (transcript s1 "s1"
          = [message_dict (now_user env_raising) "user" "one";
             message_dict (now_ai env_raising) "ai" apology_reply]) as Ht.
  { rewrite (Htr "s1"). unfold recorded_by. rewrite Hid1, Hum1, Ha1.
    reflexivity. }
  assert (history_of s1 (Some "s1") = ["Customer: one"]) as Hh by exact Hh1.
  exists (OutDemo r1), s1, r2, self2.
  split; [exact Hs|]. split; [exact H2|].
  intros transcript1 context.
  assert (line_of_turn <$> transcript1
          = ["Customer: one";
             "Assistant: I apologize for the technical difficulty. How can I assist you?";
             "Customer: two"]) as Hlines.
  { unfold transcript1. rewrite Ht, Hum2. reflexivity. }
  assert (context = ["Customer: one"; "Customer: two"]) as Hc.
  { unfold context. rewrite Hh. reflexivity. }
  split_and!.
  - exact Hlines.
  - exact Hc.
  - unfold transcript1. rewrite Hc, Ht. simpl. lia.
  - rewrite Hc, Hlines. intros [k Hk].
    destruct k as [|x [|y k]]; [discriminate Hk | | ].
    + injection Hk as _ Hk. discriminate Hk.
    + apply (f_equal length) in Hk. rewrite length_app in Hk.
      simpl in Hk. lia.
  - rewrite Ha2, lookup_message_dict_message. reflexivity.
Qed.

(** C2, as the code has it.  When the model-backed generator answers, the
    context is cut from the session's prompt history (the lines kept in
    [active_calls]), after the customer line of the current request is
    appended.  With [N] the length of that history, the context is its last
    [min 6 N] lines: a suffix, so oldest first and in the original order,
    that ends with the line just appended; the window size is fixed at 6.
    The model is run on the prompt built from this context, and in a chat
    request the line just appended renders the user turn just recorded,
    while the recorded reply is the one drawn from that prompt. *)
Theorem C2_context_is_recent_suffix
    (env : Env) (self : VoiceAI.t) (user_input : string)
    (id : option string) :
  let history1 := history_of self id ++ ["Customer: " +:+ user_input] in
  let context := recent_history history1 in
  context `suffix_of` history1
  ∧ length context = 6 `min` length history1
  ∧ last context = Some ("Customer: " +:+ user_input)
  ∧ (_generate_llm_response env self user_input id).1
    = llm_reply (run_llm env self (build_prompt context))
  ∧ (∀ cid,
       id = Some (resolve_id env cid) →
       uses_llm self = true →
       ∃ r self',
         process_demo_conversation env self user_input cid = Ok (r, self')
         ∧ last context = Some (line_of_turn (user_message r))
         ∧ ai_response r !! "message"
           = Some (llm_reply (run_llm env self (build_prompt context)))).
Proof.
  intros history1 context.
  destruct (slice_from_neg_spec 6 history1) as [Hs Hl]; [lia|].
  assert (last context = Some ("Customer: " +:+ user_input)) as Hlast.
  { apply (slice_from_neg_last 6). lia. }
  split_and!; [done | done | done | |].
  - destruct (_generate_llm_response_eq env self user_input id)
      as (self' & -> & _).
    reflexivity.
  - intros cid -> Hllm.
    destruct (process_demo_conversation_eq env self user_input cid)
      as (resp & s2 & _ & _ & _ & _ & Hp).
    destruct (process_demo_conversation_llm env self user_input cid Hllm)
      as (r & self' & Hp' & _ & Hai & _).
    exists r, self'. split; [done|].
    rewrite Hp in Hp'. injection Hp' as Hr _.
    split.
    + rewrite <- Hr. simpl. by rewrite line_of_user_turn.
    + rewrite Hai. by rewrite lookup_message_dict_message.
Qed.

(** C2 on the second chat request of a session, with a model loaded. *)
Lemma C2_witness :
  ∃ o1 self1 r2 self2,
    step (VoiceAI.init true true)
      (ProcessDemo env_fluent "Hello" (Some "s1")) = Ok (o1, self1)
    ∧ process_demo_conversation env_fluent self1 "Can you help?" (Some "s1")
      = Ok (r2, self2)
    ∧ last (recent_history
              (history_of self1 (Some "s1") ++ ["Customer: Can you help?"]))
      = Some (line_of_turn (user_message r2)).
Proof.
  destruct (step_ok (VoiceAI.init true true)
              (ProcessDemo env_fluent "Hello" (Some "s1")))
    as (o1 & self1 & Hs & _ & _ & _ & Hd & Hl).
  destruct (C2_context_is_recent_suffix env_fluent self1 "Can you help?"
              (Some "s1")) as (_ & _ & _ & _ & Hchat).
  destruct (Hchat (Some "s1") eq_refl) as (r2 & self2 & Hp & Hlast & _).
  { unfold uses_llm. rewrite Hl. apply orb_true_r. }
  exists o1, self1, r2, self2.
  split; [exact Hs|]. split; [exact Hp | exact Hlast].
Defined.

(** C3, the part that fails.  Two chat requests without a session id in the
    same second: the id returned to the second one is the id of the session
    the first one created, so it is not fresh, and the second request's
    turns land in the first one's transcript. *)
Lemma C3_minted_id_is_not_always_fresh :
  ∃ r1 self1 r2 self2,
    process_demo_conversation env_empty (VoiceAI.init true false)
      "Hello" None = Ok (r1, self1)
    ∧ process_demo_conversation env_empty self1 "Good morning" None
      = Ok (r2, self2)
    ∧ conversation_id r2 = "demo_1700000000"
    ∧ is_Some (demo_conversations self1 !! conversation_id r2)
    ∧ length (conversation_history r1) = 2
    ∧ length (conversation_history r2) = 4.
Proof.
  destruct (process_demo_conversation_eq env_empty (VoiceAI.init true false)
              "Hello" None) as (resp1 & s1 & _ & _ & _ & _ & H1).
  destruct (process_demo_conversation_eq env_empty
              (set_demo_conversations
                 (<[resolve_id env_empty None :=
                      transcript (VoiceAI.init true false)
                        (resolve_id env_empty None)
                      ++ [message_dict (now_user env_empty) "user" "Hello";
                          message_dict (now_ai env_empty) "ai" resp1]]>
                    (demo_conversations (VoiceAI.init true false))) s1)
              "Good morning" None) as (resp2 & s2 & _ & _ & _ & _ & H2).
  eexists _, _, _, _. split; [exact H1|]. split; [exact H2|].
  simpl. split_and!.
  - reflexivity.
  - rewrite lookup_insert_eq. by eexists.
  - reflexivity.
  - unfold transcript. simpl. rewrite lookup_insert_eq. reflexivity.
Qed.

(** C3, as the code has it.  A chat request always returns, under a
    non-empty session id.  Without an id (or with the empty string) the id
    is minted from the clock; a non-empty id is kept as given.  If a session
    with the resulting id exists, the two turns are appended to its
    transcript and no session is created; if none exists, it is created with
    the two turns.  The returned id stays known: after any further requests,
    submitting with it appends to the transcript that holds the earlier
    turns, and creates no session. *)
Theorem C3_session_is_found_or_created
    (env : Env) (self : VoiceAI.t) (user_input : string)
    (cid : option string) :
  ∃ r self',
    process_demo_conversation env self user_input cid = Ok (r, self')
    ∧ conversation_id r ≠ ""
    ∧ (Py.not_opt cid = true →
       conversation_id r = "demo_" +:+ Py.str_int (epoch_seconds env))
    ∧ (∀ id, cid = Some id → id ≠ "" → conversation_id r = id)
    ∧ (∀ t, demo_conversations self !! conversation_id r = Some t →
         demo_conversations self'
         = <[conversation_id r := t ++ [user_message r; ai_response r]]>
             (demo_conversations self)
         ∧ dom (demo_conversations self') = dom (demo_conversations self))
    ∧ (demo_conversations self !! conversation_id r = None →
         demo_conversations self'
         = <[conversation_id r := [user_message r; ai_response r]]>
             (demo_conversations self))
    ∧ (∀ calls env2 user_input2,
         ∃ outs self2 r2 self3,
           run self' calls = Ok (outs, self2)
           ∧ process_demo_conversation env2 self2 user_input2
               (Some (conversation_id r)) = Ok (r2, self3)
           ∧ conversation_id r2 = conversation_id r
           ∧ conversation_history r2
             = conversation_history r
               ++ recorded_on (conversation_id r) outs
               ++ [user_message r2; ai_response r2]
           ∧ dom (demo_conversations self3)
             = dom (demo_conversations self2)).
Proof.
  destruct (process_demo_conversation_eq env self user_input cid)
    as (resp & s2 & _ & _ & _ & _ & Hp).
  eexists _, _. split; [exact Hp|]. simpl.
  pose proof (resolve_id_nonempty env cid) as Hne.
  set (id := resolve_id env cid) in *.
  set (um := message_dict (now_user env) "user" user_input).
  set (am := message_dict (now_ai env) "ai" resp).
  split_and!.
  - done.
  - apply resolve_id_absent.
  - intros id' -> Hid'. by apply resolve_id_given.
  - intros t Ht. unfold transcript. rewrite Ht. simpl. split; [done|].
    apply dom_insert_lookup_L. by rewrite Ht.
  - intros Ht. unfold transcript. by rewrite Ht.
  - intros calls env2 ui2.
    set (self' := set_demo_conversations
                    (<[id := transcript self id ++ [um; am]]>
                       (demo_conversations self)) s2).
    destruct (run_steps self' calls) as (outs & self2 & Hrun & Hsteps).
    destruct (process_demo_conversation_eq env2 self2 ui2 (Some id))
      as (resp2 & s3 & _ & _ & _ & _ & Hp2).
    rewrite (resolve_id_given env2 id Hne) in Hp2.
    eexists _, _, _, _. split; [exact Hrun|]. split; [exact Hp2|]. simpl.
    split_and!.
    + done.
    + rewrite (steps_transcript _ _ _ _ Hsteps id).
      subst self'. rewrite transcript_set_insert, decide_True by done.
      by rewrite <- !app_assoc.
    + apply dom_insert_lookup_L.
      eapply steps_sessions_kept; [exact Hsteps|].
      subst self'. simpl. rewrite lookup_insert_eq. by eexists.
Qed.

(** C3 on a fresh process: a request without an id, one on another session,
    then a request under the id the first one returned. *)
Lemma C3_witness :
  ∃ r self' outs self2 r2 self3,
    process_demo_conversation env_fluent (VoiceAI.init true false) "Hello"
      None = Ok (r, self')
    ∧ conversation_id r = "demo_1700000000"
    ∧ run self' [ProcessDemo env_empty "Hi" (Some "other")]
      = Ok (outs, self2)
    ∧ process_demo_conversation env_empty self2 "Can you help?"
        (Some (conversation_id r)) = Ok (r2, self3)
    ∧ conversation_id r2 = conversation_id r
    ∧ dom (demo_conversations self3) = dom (demo_conversations self2).
Proof.
  destruct (C3_session_is_found_or_created env_fluent
              (VoiceAI.init true false) "Hello" None)
    as (r & self' & Hp & _ & Hmint & _ & _ & _ & Hlater).
  destruct (Hlater [ProcessDemo env_empty "Hi" (Some "other")]
              env_empty "Can you help?")
    as (outs & self2 & r2 & self3 & Hrun & Hp2 & Hid & _ & Hdom).
  exists r, self', outs, self2, r2, self3.
  split; [exact Hp|]. split; [exact (Hmint eq_refl)|].
  split; [exact Hrun|]. split; [exact Hp2|].
  split; [exact Hid | exact Hdom].
Defined.

(** C4. The assistant turn recorded by a chat request never has an empty
    text.  When the model-backed generator answers and the model returns a
    string of fewer than three characters (the empty string included), the
    text is the fixed fallback reply. *)
Theorem C4_degenerate_output_gets_fallback
    (env : Env) (self : VoiceAI.t) (user_input : string)
    (cid : option string) :
  ∃ r self',
    process_demo_conversation env self user_input cid = Ok (r, self')
    ∧ last (conversation_history r) = Some (ai_response r)
    ∧ (∃ text, ai_response r !! "message" = Some text ∧ text ≠ "")
    ∧ fallback_reply ≠ ""
    ∧ (∀ decoded,
         llm_loaded self = true →
         llm env (prompt_for self (Some (resolve_id env cid)) user_input)
         = Ok decoded →
         String.length decoded < 3 →
         ai_response r !! "message" = Some fallback_reply).
Proof.
  destruct (process_demo_conversation_eq env self user_input cid)
    as (resp & s2 & _ & Hne & _ & _ & Hp).
  eexists _, _. split; [exact Hp|]. simpl. split_and!.
  - by rewrite last_app.
  - by exists resp.
  - done.
  - intros decoded Hl Hllm Hlen.
    destruct (process_demo_conversation_llm env self user_input cid)
      as (r & s' & Hp' & _ & Hai & _).
    { unfold uses_llm. rewrite Hl. apply orb_true_r. }
    rewrite Hp in Hp'. injection Hp' as Hr _.
    apply (f_equal ai_response) in Hr. simpl in Hr.
    rewrite Hai in Hr. unfold run_llm in Hr. rewrite Hl, Hllm in Hr.
    rewrite clean_response_short in Hr by done.
    by rewrite Hr.
Qed.

(** C4 at a concrete request: the model returns the empty string. *)
Lemma C4_witness :
  ∃ r self',
    process_demo_conversation env_empty (VoiceAI.init true true) "Hello"
      (Some "s1") = Ok (r, self')
    ∧ ai_response r !! "message" = Some fallback_reply.
Proof.
  destruct (C4_degenerate_output_gets_fallback env_empty
              (VoiceAI.init true true) "Hello" (Some "s1"))
    as (r & self' & Hp & _ & _ & _ & Hshort).
  exists r, self'. split; [exact Hp|].
  apply (Hshort ""); [reflexivity | reflexivity | simpl; lia].
Defined.

(** C5, the part that fails.  The same request on the same state, once with
    a model that raises and once with a model that returns the empty
    string: the two replies differ, and so do the prompt histories left
    behind (a raise leaves no assistant line). *)
Lemma C5_raise_and_degenerate_output_differ :
  ∃ r_raise self_raise r_empty self_empty,
    process_demo_conversation env_raising (VoiceAI.init true true)
      "Hello" (Some "s1") = Ok (r_raise, self_raise)
    ∧ process_demo_conversation env_empty (VoiceAI.init true true)
        "Hello" (Some "s1") = Ok (r_empty, self_empty)
    ∧ ai_response r_raise !! "message"
      = Some "I apologize for the technical difficulty. How can I assist you?"
    ∧ ai_response r_empty !! "message"
      = Some "I understand. How else can I help you?"
    ∧ ai_response r_raise ≠ ai_response r_empty
    ∧ history_of self_raise (Some "s1") = ["Customer: Hello"]
    ∧ history_of self_empty (Some "s1")
      = ["Customer: Hello";
         "Assistant: I understand. How else can I help you?"].
Proof.
  destruct (process_demo_conversation_llm env_raising (VoiceAI.init true true)
              "Hello" (Some "s1") eq_refl) as (r1 & s1 & H1 & _ & Ha1 & Hh1).
  destruct (process_demo_conversation_llm env_empty (VoiceAI.init true true)
              "Hello" (Some "s1") eq_refl) as (r2 & s2 & H2 & _ & Ha2 & Hh2).
  exists r1, s1, r2, s2. split; [exact H1|]. split; [exact H2|].
  simpl in Ha1, Ha2, Hh1, Hh2.
  rewrite Ha1, Ha2. split_and!; try reflexivity.
  - intros Heq. apply (f_equal (λ m, m !! "message")) in Heq.
    vm_compute in Heq. discriminate.
  - exact Hh1.
  - exact Hh2.
Qed.

Lemma message_dict_well_formed ts sp msg :
  is_Some (speaker_of_tag sp) → well_formed_turn (message_dict ts sp msg).
Proof.
  intros [s Hs]. split_and!.
  - exists sp, s. by rewrite lookup_message_dict_speaker.
  - apply lookup_message_dict_type.
  - rewrite lookup_message_dict_timestamp. by eexists.
Qed.

(** C5, as the code has it.  A chat request always returns a well-formed
    assistant turn with a non-empty text.  When the model-backed generator
    answers and the call into the model raises, the exception stops in
    [_generate_llm_response]: the text of the assistant turn is the fixed
    apology, and the prompt history keeps the customer line only. *)
Theorem C5_generator_exception_is_caught
    (env : Env) (self : VoiceAI.t) (user_input : string)
    (cid : option string) :
  ∃ r self',
    process_demo_conversation env self user_input cid = Ok (r, self')
    ∧ well_formed_turn (ai_response r)
    ∧ (∃ text, ai_response r !! "message" = Some text ∧ text ≠ "")
    ∧ last (conversation_history r) = Some (ai_response r)
    ∧ (∀ e,
         uses_llm self = true →
         run_llm env self
           (prompt_for self (Some (resolve_id env cid)) user_input)
         = Raise e →
         ai_response r !! "message" = Some apology_reply
         ∧ apology_reply ≠ ""
         ∧ history_of self' (Some (resolve_id env cid))
           = history_of self (Some (resolve_id env cid))
             ++ ["Customer: " +:+ user_input]).
Proof.
  destruct (process_demo_conversation_eq env self user_input cid)
    as (resp & s2 & _ & Hne & _ & _ & Hp).
  eexists _, _. split; [exact Hp|]. simpl. split_and!.
  - apply message_dict_well_formed. by eexists.
  - by exists resp.
  - by rewrite last_app.
  - intros e Hllm Hraise.
    destruct (process_demo_conversation_llm env self user_input cid Hllm)
      as (r & s' & Hp' & _ & Hai & Hh).
    rewrite Hp in Hp'. injection Hp' as Hr Hs.
    rewrite Hraise in Hai, Hh.
    apply (f_equal ai_response) in Hr. simpl in Hr.
    rewrite Hs, Hr, Hai. done.
Qed.

(** C5 at a concrete request: the model raises. *)
Lemma C5_witness :
  ∃ r self',
    process_demo_conversation env_raising (VoiceAI.init false true) "Hello"
      (Some "s1") = Ok (r, self')
    ∧ ai_response r !! "message" = Some apology_reply
    ∧ history_of self' (Some "s1") = ["Customer: Hello"].
Proof.
  destruct (C5_generator_exception_is_caught env_raising
              (VoiceAI.init false true) "Hello" (Some "s1"))
    as (r & self' & Hp & _ & _ & _ & Hraise).
  exists r, self'. split; [exact Hp|].
  destruct (Hraise (ExternalError "CUDA out of memory") eq_refl eq_refl)
    as (Hm & _ & Hh).
  split; [exact Hm | exact Hh].
Defined.

(** C6. A chat request with the empty string as input returns like any
    other: a user turn with the empty text and an assistant turn with a
    non-empty text are appended, in this order, to the session's
    transcript. *)
Theorem C6_empty_input_is_accepted
    (env : Env) (self : VoiceAI.t) (cid : option string) :
  ∃ r self',
    process_demo_conversation env self "" cid = Ok (r, self')
    ∧ user_message r !! "speaker" = Some "user"
    ∧ user_message r !! "message" = Some ""
    ∧ ai_response r !! "speaker" = Some "ai"
    ∧ (∃ text, ai_response r !! "message" = Some text ∧ text ≠ "")
    ∧ conversation_history r
      = transcript self (conversation_id r)
        ++ [user_message r; ai_response r]
    ∧ transcript self' (conversation_id r) = conversation_history r.
Proof.
  destruct (process_demo_conversation_eq env self "" cid)
    as (resp & s2 & _ & Hne & _ & _ & Hp).
  eexists _, _. split; [exact Hp|]. simpl. split_and!; try done.
  - by exists resp.
  - by rewrite transcript_set_insert, decide_True.
Qed.

(** C7. Without a session id (or with the empty string, which Python
    treats alike) the id is ["demo_"] followed by the decimal rendering of
    the clock's whole seconds.  A second request minted in the same second
    gets the same id and continues the first one's transcript; requests
    minted in different seconds get different ids. *)
Theorem C7_minted_id_is_demo_seconds
    (env : Env) (self : VoiceAI.t) (user_input : string) :
  ∃ r self',
    process_demo_conversation env self user_input None = Ok (r, self')
    ∧ process_demo_conversation env self user_input (Some "")
      = Ok (r, self')
    ∧ conversation_id r = "demo_" +:+ Py.str_int (epoch_seconds env)
    ∧ (∀ env2 user_input2, ∃ r2 self2,
         process_demo_conversation env2 self' user_input2 None
         = Ok (r2, self2)
         ∧ (epoch_seconds env2 = epoch_seconds env →
            conversation_id r2 = conversation_id r
            ∧ conversation_history r2
              = conversation_history r ++ [user_message r2; ai_response r2])
         ∧ (epoch_seconds env2 ≠ epoch_seconds env →
            conversation_id r2 ≠ conversation_id r)).
Proof.
  destruct (process_demo_conversation_eq env self user_input None)
    as (resp & s2 & _ & _ & _ & _ & Hp).
  eexists _, _. split; [exact Hp|]. simpl. split_and!; try done.
  intros env2 ui2.
  destruct (process_demo_conversation_eq env2
              (set_demo_conversations
                 (<["demo_" +:+ Py.str_int (epoch_seconds env) :=
                      transcript self
                        ("demo_" +:+ Py.str_int (epoch_seconds env))
                      ++ [message_dict (now_user env) "user" user_input;
                          message_dict (now_ai env) "ai" resp]]>
                    (demo_conversations self)) s2) ui2 None)
    as (resp2 & s3 & _ & _ & _ & _ & Hp2).
  eexists _, _. split; [exact Hp2|]. simpl. split.
  - intros ->. split; [done|].
    by rewrite transcript_set_insert, decide_True.
  - intros Hsec Heq. apply Hsec. by apply minted_id_inj.
Qed.

(** C7 at two concrete requests in the same second. *)
Lemma C7_witness :
  ∃ r1 self1 r2 self2,
    process_demo_conversation env_fluent (VoiceAI.init true false) "Hello"
      None = Ok (r1, self1)
    ∧ process_demo_conversation env_empty self1 "Hello again" None
      = Ok (r2, self2)
    ∧ conversation_id r1 = "demo_1700000000"
    ∧ conversation_id r2 = "demo_1700000000".
Proof.
  destruct (C7_minted_id_is_demo_seconds env_fluent (VoiceAI.init true false)
              "Hello") as (r1 & self1 & Hp & _ & Hid & Hnext).
  destruct (Hnext env_empty "Hello again") as (r2 & self2 & Hp2 & Hsame & _).
  exists r1, self1, r2, self2. split; [exact Hp|]. split; [exact Hp2|].
  destruct (Hsame eq_refl) as [Hid2 _].
  split; [exact Hid | by rewrite Hid2].
Defined.

(** ** The shape of the turns *)

Section TurnShape.

Lemma turns_well_formed_transcript self :
  turns_well_formed self ↔
  ∀ id m, m ∈ transcript self id → well_formed_turn m.
Proof.
  unfold turns_well_formed, transcript. split.
  - intros Hwf id m Hm.
    destruct (demo_conversations self !! id) as [t|] eqn:E; simpl in Hm.
    + by eapply Hwf.
    + by apply elem_of_nil in Hm.
  - intros Hwf id t m Ht Hm. apply (Hwf id). by rewrite Ht.
Qed.

Lemma answers_well_formed c o id m :
  answers c o → m ∈ recorded_by id o → well_formed_turn m.
Proof.
  destruct c as [env ui cid | env ui cid], o as [r | resp]; simpl; try done.
  - intros (_ & Hum & resp & _ & Ham).
    destruct (decide (conversation_id r = id)); [|by intros ?%elem_of_nil].
    intros [-> | [-> | []%elem_of_nil]%elem_of_cons]%elem_of_cons.
    + rewrite Hum. apply message_dict_well_formed. by eexists.
    + rewrite Ham. apply message_dict_well_formed. by eexists.
  - by intros _ ?%elem_of_nil.
Qed.

Lemma recorded_on_well_formed calls outs id m :
  Forall2 answers calls outs →
  m ∈ recorded_on id outs → well_formed_turn m.
Proof.
  unfold recorded_on.
  induction 1 as [|c o cs os Ha _ IH]; simpl; [by intros ?%elem_of_nil|].
  intros [Hm | Hm]%elem_of_app; [by eapply answers_well_formed | auto].
Qed.

Lemma recorded_on_take_subset id i outs m :
  m ∈ recorded_on id (take i outs) → m ∈ recorded_on id outs.
Proof.
  unfold recorded_on. rewrite <- (take_drop i outs) at 2.
  rewrite flat_map_app. intros Hm. apply elem_of_app. by left.
Qed.

End TurnShape.

(** C8. The store of a fresh process holds only well-formed turns, and
    every sequence of requests keeps it so: each turn in each transcript
    has a speaker tag that names a speaker of the data model (["user"] for
    the user, ["ai"] for the assistant), the type tag ["text"], and a
    timestamp.  The same holds for the turns and the history every request
    returns. *)
Theorem C8_turns_are_well_formed :
  (∀ demo llm_ok, turns_well_formed (VoiceAI.init demo llm_ok))
  ∧ (∀ (self : VoiceAI.t) (calls : list Call),
       turns_well_formed self →
       ∃ outs self',
         run self calls = Ok (outs, self')
         ∧ turns_well_formed self'
         ∧ (∀ r, OutDemo r ∈ outs →
              user_message r !! "speaker" = Some "user"
              ∧ ai_response r !! "speaker" = Some "ai"
              ∧ well_formed_turn (user_message r)
              ∧ well_formed_turn (ai_response r)
              ∧ Forall well_formed_turn (conversation_history r))).
Proof.
  split.
  { intros demo llm_ok id t m Ht. simpl in Ht. by rewrite lookup_empty in Ht. }
  intros self calls Hwf.
  destruct (run_steps self calls) as (outs & self' & Hrun & Hsteps).
  pose proof (steps_answers _ _ _ _ Hsteps) as Hans.
  rewrite turns_well_formed_transcript in Hwf.
  exists outs, self'. split_and!; [done| |].
  - apply turns_well_formed_transcript. intros id m.
    rewrite (steps_transcript _ _ _ _ Hsteps id).
    intros [Hm | Hm]%elem_of_app; [by eapply Hwf|].
    by eapply recorded_on_well_formed.
  - intros r [i Hi]%list_elem_of_lookup_1.
    destruct (Forall2_lookup_r _ _ _ _ _ Hans Hi) as (c & _ & Hc).
    destruct c as [env ui cid | env ui cid]; simpl in Hc; [|done].
    destruct Hc as (_ & Hum & resp & _ & Ham).
    rewrite Hum, Ham. split_and!; try done.
    + apply message_dict_well_formed. by eexists.
    + apply message_dict_well_formed. by eexists.
    + rewrite (steps_history _ _ _ _ Hsteps i r Hi).
      apply Forall_forall. intros m [Hm | Hm]%elem_of_app.
      * by eapply Hwf.
      * eapply recorded_on_well_formed; [exact Hans|].
        by eapply recorded_on_take_subset.
Qed.

(** C8 on a fresh process that serves three requests. *)
Lemma C8_witness :
  ∃ outs self',
    run (VoiceAI.init true true)
      [ProcessDemo env_fluent "Hello" None;
       GenerateResponse env_raising "Are you there?" (Some "s2");
       ProcessDemo env_empty "" (Some "demo_1700000000")]
    = Ok (outs, self')
    ∧ turns_well_formed self'.
Proof.
  destruct C8_turns_are_well_formed as [Hinit Hrun].
  destruct (Hrun (VoiceAI.init true true)
              [ProcessDemo env_fluent "Hello" None;
               GenerateResponse env_raising "Are you there?" (Some "s2");
               ProcessDemo env_empty "" (Some "demo_1700000000")]
              (Hinit true true)) as (outs & self' & Hr & Hwf & _).
  exists outs, self'. split; [exact Hr | exact Hwf].
Defined.

(** ** The mock generator across requests *)

Section MockReplies.

Lemma step_mock self c o self' :
  step self c = Ok (o, self') →
  demo_mode self = true → llm_loaded self = false →
  reply_of o
  = MockAudioProcessor.responses
      !! (MockAudioProcessor.response_index (mock_processor self) mod 7)
  ∧ MockAudioProcessor.response_index (mock_processor self')
    = MockAudioProcessor.response_index (mock_processor self) + 1.
Proof.
  intros Hs Hd Hl. destruct c as [env ui cid | env ui cid]; simpl in Hs.
  - destruct (process_demo_conversation_eq env self ui cid)
      as (resp & s2 & Hg & _ & _ & _ & Hp).
    rewrite Hp in Hs. simpl in Hs. injection Hs as <- <-.
    destruct (generate_response_mock env
                (set_demo_conversations
                   (<[resolve_id env cid :=
                        transcript self (resolve_id env cid)
                        ++ [message_dict (now_user env) "user" ui]]>
                      (demo_conversations self)) self)
                ui (Some (resolve_id env cid)) Hd Hl) as (resp' & Hr & Hg').
    rewrite Hg in Hg'. injection Hg' as <- ->. simpl.
    by rewrite lookup_message_dict_message.
  - destruct (generate_response_mock env self ui cid Hd Hl)
      as (resp & Hr & Hg).
    rewrite Hg in Hs. simpl in Hs. injection Hs as <- <-. done.
Qed.

Lemma steps_mock self calls outs self' :
  steps self calls outs self' →
  demo_mode self = true → llm_loaded self = false →
  length outs = length calls
  ∧ MockAudioProcessor.response_index (mock_processor self')
    = MockAudioProcessor.response_index (mock_processor self) + length calls
  ∧ ∀ i o, outs !! i = Some o →
      reply_of o
      = MockAudioProcessor.responses
          !! ((MockAudioProcessor.response_index (mock_processor self) + i)
              mod 7).
Proof.
  induction 1 as [|s c o s1 cs os s2 Hs Hsteps IH]; intros Hd Hl.
  - split_and!; [done | simpl; lia | done].
  - destruct (step_mock _ _ _ _ Hs Hd Hl) as [Hreply Hidx].
    destruct (step_ok s c) as (o' & s1' & Hs' & _ & _ & _ & Hd1 & Hl1).
    rewrite Hs in Hs'. injection Hs' as <- <-.
    destruct IH as (Hlen & Hidx2 & Hrest); [congruence..|].
    split_and!.
    + simpl. by rewrite Hlen.
    + simpl. lia.
    + intros [|i] o'; simpl.
      * intros [= <-]. by rewrite Nat.add_0_r.
      * intros Hi. rewrite (Hrest i o' Hi), Hidx.
        by rewrite <- Nat.add_assoc.
Qed.

End MockReplies.

(** C10, the part that fails.  "No language model is loaded" does not
    suffice.  The object the constructor returns in production mode on a
    host without the transformers package has no model, and its replies,
    to a chat request and to a direct call, are the apology of the [except]
    branch, which is no entry of the table of canned responses; the mock's
    counter is not consulted and stays at 0. *)
Lemma C10_production_without_model_apologises :
  Service.construct host_bare
  = inr (VoiceAI.init false false,
         {| whisper_model := Unset;
            tts_engine := Unset;
            plivo_client := true |})
  ∧ llm_loaded (VoiceAI.init false false) = false
  ∧ ∃ outs self',
      run (VoiceAI.init false false)
        [ProcessDemo env_fluent "Hello" (Some "s1");
         GenerateResponse env_fluent "Hi" None] = Ok (outs, self')
      ∧ reply_of <$> outs
        = [Some "I apologize for the technical difficulty. How can I assist you?";
           Some "I apologize for the technical difficulty. How can I assist you?"]
      ∧ MockAudioProcessor.responses !! 0
        = Some "I understand you'd like assistance. How can I help you today?"
      ∧ MockAudioProcessor.responses !! 1
        = Some "Thank you for that information. Let me help you with that."
      ∧ (apology_reply ∉ MockAudioProcessor.responses)
      ∧ MockAudioProcessor.response_index (mock_processor self') = 0.
Proof.
  split; [reflexivity|]. split; [reflexivity|].
  destruct (run (VoiceAI.init false false)
              [ProcessDemo env_fluent "Hello" (Some "s1");
               GenerateResponse env_fluent "Hi" None])
    as [[outs self']|e] eqn:E; vm_compute in E; [|discriminate E].
  injection E as <- <-.
  eexists _, _. split; [reflexivity|].
  split; [vm_compute; reflexivity|].
  split; [reflexivity|]. split; [reflexivity|].
  split; [|reflexivity].
  unfold MockAudioProcessor.responses. intros Hin.
  repeat (apply elem_of_cons in Hin as [Hin | Hin]; [discriminate Hin|]).
  by apply elem_of_nil in Hin.
Qed.

(** C10. A process in demo mode with no model loaded answers its [i]-th
    generation request (counted from 0 over all requests, chat or direct,
    whatever their session and text) with entry [i mod 7] of the table of
    canned responses.  So the reply to one and the same chat request on a
    session changes when a request on another session is served before
    it. *)
Theorem C10_mock_reply_is_round_robin (calls : list Call) :
  ∃ outs self',
    run (VoiceAI.init true false) calls = Ok (outs, self')
    ∧ length outs = length calls
    ∧ MockAudioProcessor.response_index (mock_processor self')
      = length calls
    ∧ (∀ i o, outs !! i = Some o →
         ∃ response,
           MockAudioProcessor.responses !! (i mod 7) = Some response
           ∧ reply_of o = Some response)
    ∧ (∀ env user_input id env' user_input' id',
         ∃ alone other after self1 self2,
           run (VoiceAI.init true false)
             [ProcessDemo env user_input id] = Ok ([alone], self1)
           ∧ run (VoiceAI.init true false)
               [ProcessDemo env' user_input' id';
                ProcessDemo env user_input id]
             = Ok ([other; after], self2)
           ∧ reply_of alone = MockAudioProcessor.responses !! 0
           ∧ reply_of after = MockAudioProcessor.responses !! 1
           ∧ reply_of alone ≠ reply_of after).
Proof.
  destruct (run_steps (VoiceAI.init true false) calls)
    as (outs & self' & Hrun & Hsteps).
  destruct (steps_mock _ _ _ _ Hsteps eq_refl eq_refl)
    as (Hlen & Hidx & Hreply).
  exists outs, self'. split_and!; [done | done | exact Hidx | |].
  - intros i o Hi. rewrite (Hreply i o Hi).
    change (MockAudioProcessor.response_index
              (mock_processor (VoiceAI.init true false)) + i) with i.
    destruct (lookup_lt_is_Some_2 MockAudioProcessor.responses (i mod 7))
      as [response Hresponse]; [|by exists response].
    rewrite responses_length. apply Nat.mod_upper_bound. lia.
  - intros env ui id env' ui' id'.
    destruct (run_steps (VoiceAI.init true false) [ProcessDemo env ui id])
      as (outs1 & s1 & Hrun1 & Hsteps1).
    destruct (run_steps (VoiceAI.init true false)
                [ProcessDemo env' ui' id'; ProcessDemo env ui id])
      as (outs2 & s2 & Hrun2 & Hsteps2).
    destruct (steps_mock _ _ _ _ Hsteps1 eq_refl eq_refl)
      as (Hlen1 & _ & Hreply1).
    destruct (steps_mock _ _ _ _ Hsteps2 eq_refl eq_refl)
      as (Hlen2 & _ & Hreply2).
    destruct outs1 as [|alone [|? ?]]; try discriminate.
    destruct outs2 as [|other [|after [|? ?]]]; try discriminate.
    exists alone, other, after, s1, s2.
    specialize (Hreply1 0 alone eq_refl).
    specialize (Hreply2 1 after eq_refl).
    split_and!; [done..|].
    rewrite Hreply1, Hreply2. discriminate.
Qed.

(** C10 on eight requests: the eighth reply is the first canned response
    again. *)
Lemma C10_witness :
  ∃ outs self' o,
    run (VoiceAI.init true false)
      (replicate 4 (ProcessDemo env_fluent "Hello" (Some "a"))
       ++ replicate 3 (GenerateResponse env_raising "Hi" None)
       ++ [ProcessDemo env_empty "" (Some "b")])
    = Ok (outs, self')
    ∧ outs !! 7 = Some o
    ∧ reply_of o
      = Some "I understand you'd like assistance. How can I help you today?".
Proof.
  destruct (C10_mock_reply_is_round_robin
              (replicate 4 (ProcessDemo env_fluent "Hello" (Some "a"))
               ++ replicate 3 (GenerateResponse env_raising "Hi" None)
               ++ [ProcessDemo env_empty "" (Some "b")]))
    as (outs & self' & Hrun & Hlen & _ & Hreply & _).
  destruct (lookup_lt_is_Some_2 outs 7) as [o Ho].
  { rewrite Hlen. simpl. lia. }
  destruct (Hreply 7 o Ho) as (response & Hresponse & Ho').
  exists outs, self', o. split; [exact Hrun|]. split; [exact Ho|].
  rewrite Ho'. symmetry. exact Hresponse.
Defined.

(** * Beyond the claims *)

(** ** What one request does to the generators' state *)

Section Effects.

Lemma clean_response_length decoded : 3 ≤ String.length (clean_response decoded).
Proof.
  unfold clean_response.
  destruct (Py.not_str _); simpl; [cbv; lia|].
  destruct (Nat.ltb_spec (String.length
              (Py.replace "Assistant:" "" (Py.strip decoded))) 3);
    [cbv; lia | done].
Qed.

Lemma responses_long response :
  response ∈ MockAudioProcessor.responses → 3 ≤ String.length response.
Proof.
  unfold MockAudioProcessor.responses. intros Hin.
  repeat (apply elem_of_cons in Hin as [-> | Hin]; [cbv; lia|]).
  by apply elem_of_nil in Hin.
Qed.

Lemma llm_reply_length outcome : 3 ≤ String.length (llm_reply outcome).
Proof.
  destruct outcome; simpl; [apply clean_response_length | cbv; lia].
Qed.

Lemma _generate_llm_response_state env self user_input id :
  let outcome := run_llm env self (prompt_for self id user_input) in
  _generate_llm_response env self user_input id
  = (llm_reply outcome,
     set_active_calls
       (<[id := {| history :=
                     history_of self id ++ llm_lines outcome user_input |}]>
          (active_calls self)) self).
Proof.
  intros outcome. unfold _generate_llm_response.
  rewrite _generate_llm_response_try_eq. subst outcome. unfold prompt_for.
  destruct (run_llm env self _); simpl; [|done].
  by rewrite <- app_assoc.
Qed.

(** [generate_response], whole: which generator answers, what it returns,
    what it changes. *)
Lemma generate_response_effect env self user_input id :
  ∃ response self',
    generate_response env self user_input id = Ok (response, self')
    ∧ demo_conversations self' = demo_conversations self
    ∧ demo_mode self' = demo_mode self
    ∧ llm_loaded self' = llm_loaded self
    ∧ if uses_llm self then
        let outcome := run_llm env self (prompt_for self id user_input) in
        response = llm_reply outcome
        ∧ mock_processor self' = mock_processor self
        ∧ active_calls self'
          = <[id := {| history :=
                         history_of self id
                         ++ llm_lines outcome user_input |}]>
              (active_calls self)
      else
        MockAudioProcessor.responses
          !! (MockAudioProcessor.response_index (mock_processor self) mod 7)
        = Some response
        ∧ MockAudioProcessor.response_index (mock_processor self')
          = MockAudioProcessor.response_index (mock_processor self) + 1
        ∧ active_calls self' = active_calls self.
Proof.
  destruct (uses_llm self) eqn:Hu.
  - rewrite generate_response_llm, _generate_llm_response_state by done.
    eexists _, _. split; [reflexivity|]. by simpl.
  - unfold uses_llm in Hu. apply orb_false_elim in Hu as [Hd Hl].
    apply negb_false_iff in Hd.
    destruct (generate_response_mock env self user_input id Hd Hl)
      as (r & Hr & ->).
    eexists _, _. split; [reflexivity|]. by simpl.
Qed.

(** One request, as far as the generators' state goes. *)
Lemma step_effect self c o self' :
  step self c = Ok (o, self') →
  let id := generation_id c in
  let user_input := generation_text c in
  let env := generation_env c in
  demo_mode self' = demo_mode self
  ∧ llm_loaded self' = llm_loaded self
  ∧ if uses_llm self then
      let outcome := run_llm env self (prompt_for self id user_input) in
      reply_of o = Some (llm_reply outcome)
      ∧ mock_processor self' = mock_processor self
      ∧ active_calls self'
        = <[id := {| history :=
                       history_of self id ++ llm_lines outcome user_input |}]>
            (active_calls self)
    else
      reply_of o
      = MockAudioProcessor.responses
          !! (MockAudioProcessor.response_index (mock_processor self) mod 7)
      ∧ MockAudioProcessor.response_index (mock_processor self')
        = MockAudioProcessor.response_index (mock_processor self) + 1
      ∧ active_calls self' = active_calls self.
Proof.
  intros Hs. destruct c as [env ui cid | env ui cid]; simpl in *.
  - destruct (process_demo_conversation_eq env self ui cid)
      as (resp & s2 & Hg & _ & _ & _ & Hp).
    rewrite Hp in Hs. simpl in Hs. injection Hs as <- <-.
    destruct (generate_response_effect env
                (set_demo_conversations
                   (<[resolve_id env cid :=
                        transcript self (resolve_id env cid)
                        ++ [message_dict (now_user env) "user" ui]]>
                      (demo_conversations self)) self)
                ui (Some (resolve_id env cid)))
      as (resp' & s2' & Hg' & _ & Hdm & Hll & Heff).
    rewrite Hg in Hg'. injection Hg' as <- <-.
    split; [done|]. split; [done|].
    change (uses_llm (set_demo_conversations _ self)) with (uses_llm self)
      in Heff.
    destruct (uses_llm self); simpl in *.
    + destruct Heff as (-> & Hmp & Hac). by rewrite lookup_message_dict_message.
    + destruct Heff as (Hr & Hidx & Hac).
      by rewrite lookup_message_dict_message.
  - destruct (generate_response_effect env self ui cid)
      as (resp & s2 & Hg & _ & Hdm & Hll & Heff).
    rewrite Hg in Hs. simpl in Hs. injection Hs as <- <-.
    split; [done|]. split; [done|].
    destruct (uses_llm self); simpl in *.
    + by destruct Heff as (-> & Hmp & Hac).
    + by destruct Heff as (Hr & Hidx & Hac).
Qed.

Lemma step_uses_llm self c o self' :
  step self c = Ok (o, self') → uses_llm self' = uses_llm self.
Proof.
  intros Hs. destruct (step_effect _ _ _ _ Hs) as (Hd & Hl & _).
  unfold uses_llm. by rewrite Hd, Hl.
Qed.

Lemma steps_flags self calls outs self' :
  steps self calls outs self' →
  demo_mode self' = demo_mode self ∧ llm_loaded self' = llm_loaded self.
Proof.
  induction 1 as [|s c o s1 cs os s2 Hs _ [IH1 IH2]]; [done|].
  destruct (step_effect _ _ _ _ Hs) as (Hd & Hl & _).
  split; congruence.
Qed.

End Effects.

(** ** Prompt histories *)

Section Histories.

Lemma exchanges_llm_lines h outcome user_input :
  exchanges h → exchanges (h ++ llm_lines outcome user_input).
Proof.
  intros Hh. destruct outcome; simpl.
  - apply exchanges_answered; [done | apply clean_response_length].
  - by apply exchanges_unanswered.
Qed.

Lemma histories_shaped_history_of self id :
  histories_shaped self → exchanges (history_of self id).
Proof.
  intros Hs. unfold history_of.
  destruct (active_calls self !! id) as [cd|] eqn:E; [by eapply Hs|].
  constructor.
Qed.

Lemma step_histories_shaped self c o self' :
  step self c = Ok (o, self') → histories_shaped self → histories_shaped self'.
Proof.
  intros Hs Hshape. destruct (step_effect _ _ _ _ Hs) as (_ & _ & Heff).
  destruct (uses_llm self).
  - destruct Heff as (_ & _ & Hac). intros id cd. rewrite Hac, lookup_insert.
    case_decide as Hid; [|by apply Hshape].
    intros [= <-]. simpl. apply exchanges_llm_lines.
    by apply histories_shaped_history_of.
  - destruct Heff as (_ & _ & Hac). intros id cd. rewrite Hac. apply Hshape.
Qed.

Lemma steps_histories_shaped self calls outs self' :
  steps self calls outs self' → histories_shaped self → histories_shaped self'.
Proof.
  induction 1 as [|s c o s1 cs os s2 Hs _ IH]; [done|].
  intros Hshape. apply IH. by eapply step_histories_shaped.
Qed.

Lemma customer_line_is_customer u :
  is_customer_line ("Customer: " +:+ u) = true.
Proof. unfold is_customer_line. simpl. by destruct u. Qed.

Lemma customer_line_not_assistant u :
  is_assistant_line ("Customer: " +:+ u) = false.
Proof. reflexivity. Qed.

Lemma assistant_line_is_assistant r :
  is_assistant_line ("Assistant: " +:+ r) = true.
Proof. unfold is_assistant_line. simpl. by destruct r. Qed.

(** In a history made of exchanges every line carries one of the two
    labels, and an assistant line comes right after a customer line. *)
Lemma exchanges_lines h :
  exchanges h →
  (∀ i line, h !! i = Some line →
     is_customer_line line || is_assistant_line line = true)
  ∧ (∀ i line, h !! i = Some line → is_assistant_line line = true →
       ∃ j previous, i = S j ∧ h !! j = Some previous
                     ∧ is_customer_line previous = true).
Proof.
  induction 1 as [|h u Hh [IH1 IH2] | h u r Hh [IH1 IH2] Hr].
  - split; intros i line Hi; by rewrite lookup_nil in Hi.
  - split; intros i line Hi.
    + apply lookup_app_Some in Hi as [Hi | [Hge Hi]]; [by eapply IH1|].
      apply list_lookup_singleton_Some in Hi as [_ <-].
      by rewrite customer_line_is_customer.
    + intros Ha.
      apply lookup_app_Some in Hi as [Hi | [Hge Hi]].
      * destruct (IH2 i line Hi Ha) as (j & prev & -> & Hj & Hc).
        exists j, prev. split; [done|]. split; [|done].
        by apply lookup_app_l_Some.
      * apply list_lookup_singleton_Some in Hi as [_ <-].
        by rewrite customer_line_not_assistant in Ha.
  - split; intros i line Hi.
    + apply lookup_app_Some in Hi as [Hi | [Hge Hi]]; [by eapply IH1|].
      destruct (i - length h) as [|[|n]] eqn:E; simpl in Hi; [| |done].
      * injection Hi as <-. by rewrite customer_line_is_customer.
      * injection Hi as <-. rewrite assistant_line_is_assistant.
        apply orb_true_r.
    + intros Ha.
      apply lookup_app_Some in Hi as [Hi | [Hge Hi]].
      * destruct (IH2 i line Hi Ha) as (j & prev & -> & Hj & Hc).
        exists j, prev. split; [done|]. split; [|done].
        by apply lookup_app_l_Some.
      * destruct (i - length h) as [|[|n]] eqn:E; simpl in Hi; [| |done].
        -- injection Hi as <-.
           by rewrite customer_line_not_assistant in Ha.
        -- exists (length h), ("Customer: " +:+ u).
           split; [lia|]. split; [|apply customer_line_is_customer].
           rewrite lookup_app_r by lia. by rewrite Nat.sub_diag.
Qed.

End Histories.

(** X1. On a process started by [__init__], whatever requests are served,
    every prompt history kept in [active_calls] is a sequence of exchanges:
    a customer line, followed or not by one assistant line whose reply has at
    least three characters.  So every line carries one of the two labels,
    and an assistant line always comes directly after a customer line (no
    history starts with an assistant line, no two assistant lines are
    adjacent). *)
Theorem X1_prompt_history_is_made_of_exchanges
    (demo llm_ok : bool) (calls : list Call) :
  ∃ outs self',
    run (VoiceAI.init demo llm_ok) calls = Ok (outs, self')
    ∧ ∀ id,
        exchanges (history_of self' id)
        ∧ (∀ i line, history_of self' id !! i = Some line →
             is_customer_line line || is_assistant_line line = true)
        ∧ (∀ i line, history_of self' id !! i = Some line →
             is_assistant_line line = true →
             ∃ j previous,
               i = S j ∧ history_of self' id !! j = Some previous
               ∧ is_customer_line previous = true).
Proof.
  destruct (run_steps (VoiceAI.init demo llm_ok) calls)
    as (outs & self' & Hrun & Hsteps).
  exists outs, self'. split; [done|]. intros id.
  assert (exchanges (history_of self' id)) as Hex.
  { apply histories_shaped_history_of.
    eapply steps_histories_shaped; [exact Hsteps|].
    intros k cd Hk. simpl in Hk. by rewrite lookup_empty in Hk. }
  split; [done|]. by apply exchanges_lines.
Qed.

(** X1 on a model that answers, then raises, then answers. *)
Lemma X1_witness :
  ∃ outs self',
    run (VoiceAI.init true true)
      [ProcessDemo env_fluent "Hello" (Some "s1");
       ProcessDemo env_raising "Are you there?" (Some "s1");
       GenerateResponse env_empty "Hi" (Some "s1")]
    = Ok (outs, self')
    ∧ exchanges (history_of self' (Some "s1")).
Proof.
  destruct (X1_prompt_history_is_made_of_exchanges true true
              [ProcessDemo env_fluent "Hello" (Some "s1");
               ProcessDemo env_raising "Are you there?" (Some "s1");
               GenerateResponse env_empty "Hi" (Some "s1")])
    as (outs & self' & Hrun & Hshape).
  exists outs, self'. split; [exact Hrun|].
  exact (proj1 (Hshape (Some "s1"))).
Defined.

(** X2. Every reply has at least three characters, whichever generator
    produced it and whether it is returned directly or recorded as the
    assistant turn of a chat request. *)
Theorem X2_reply_has_three_characters (self : VoiceAI.t) (c : Call) :
  ∃ o self' text,
    step self c = Ok (o, self')
    ∧ reply_of o = Some text
    ∧ 3 ≤ String.length text.
Proof.
  destruct (step_ok self c) as (o & self' & Hs & _).
  destruct (step_effect _ _ _ _ Hs) as (_ & _ & Heff).
  destruct (uses_llm self).
  - destruct Heff as (Hr & _).
    eexists o, self', _. split; [done|]. split; [exact Hr|].
    apply llm_reply_length.
  - destruct Heff as (Hr & _).
    destruct (lookup_lt_is_Some_2 MockAudioProcessor.responses
                (MockAudioProcessor.response_index (mock_processor self)
                 mod 7)) as [text Htext].
    { rewrite responses_length. apply Nat.mod_upper_bound. lia. }
    exists o, self', text. split; [done|]. split; [by rewrite Hr|].
    apply responses_long. by eapply list_elem_of_lookup_2.
Qed.

(** ** Sessions do not touch one another *)

Section Isolation.

Lemma step_demo_conversations self c o self' :
  step self c = Ok (o, self') →
  ∀ id, (∀ r, o = OutDemo r → conversation_id r ≠ id) →
        demo_conversations self' !! id = demo_conversations self !! id.
Proof.
  intros Hs id Hid. destruct c as [env ui cid | env ui cid]; simpl in Hs.
  - destruct (process_demo_conversation_eq env self ui cid)
      as (resp & s2 & _ & _ & _ & _ & Hp).
    rewrite Hp in Hs. simpl in Hs. injection Hs as <- <-. simpl.
    apply lookup_insert_ne. by apply (Hid _ eq_refl).
  - destruct (generate_response_ok env self ui cid)
      as (resp & s2 & Hg & _ & Hdc & _).
    rewrite Hg in Hs. simpl in Hs. injection Hs as <- <-. by rewrite Hdc.
Qed.

Lemma step_active_calls self c o self' :
  step self c = Ok (o, self') →
  (∀ k, k ≠ generation_id c →
        active_calls self' !! k = active_calls self !! k)
  ∧ history_of self (generation_id c)
    `prefix_of` history_of self' (generation_id c).
Proof.
  intros Hs. destruct (step_effect _ _ _ _ Hs) as (_ & _ & Heff).
  destruct (uses_llm self).
  - destruct Heff as (_ & _ & Hac). split.
    + intros k Hk. rewrite Hac. by apply lookup_insert_ne.
    + unfold history_of at 2. rewrite Hac, lookup_insert_eq. simpl.
      by apply prefix_app_r.
  - destruct Heff as (_ & _ & Hac). split.
    + intros k _. by rewrite Hac.
    + unfold history_of. by rewrite Hac.
Qed.

End Isolation.

(** X3. One request changes one session only.  The transcripts stored under
    every id other than the one the request is filed under are left as they
    are (none is created, none is removed), and so are the prompt histories
    under every key other than the one the request generates for.  The
    session's own transcript and prompt history are only extended: what was
    there remains as a prefix. *)
Theorem X3_request_touches_one_session (self : VoiceAI.t) (c : Call) :
  ∃ o self',
    step self c = Ok (o, self')
    ∧ (∀ id, (∀ r, o = OutDemo r → conversation_id r ≠ id) →
         demo_conversations self' !! id = demo_conversations self !! id)
    ∧ (∀ k, k ≠ generation_id c →
         active_calls self' !! k = active_calls self !! k)
    ∧ (∀ id, transcript self id `prefix_of` transcript self' id)
    ∧ (∀ k, history_of self k `prefix_of` history_of self' k).
Proof.
  destruct (step_ok self c) as (o & self' & Hs & _ & Ht & _).
  destruct (step_active_calls _ _ _ _ Hs) as [Hother Hown].
  exists o, self'. split_and!; [done | | done | |].
  - by apply (step_demo_conversations self c).
  - intros id. rewrite Ht. by apply prefix_app_r.
  - intros k. destruct (decide (k = generation_id c)) as [->|Hk]; [done|].
    unfold history_of. by rewrite Hother.
Qed.

(** X3 on a store with two sessions: a request on the second leaves the
    first as it was. *)
Lemma X3_witness :
  ∃ o1 self1 o2 self2,
    step (VoiceAI.init true true)
      (ProcessDemo env_fluent "Hello" (Some "a")) = Ok (o1, self1)
    ∧ step self1 (ProcessDemo env_raising "Hi" (Some "b")) = Ok (o2, self2)
    ∧ demo_conversations self2 !! "a" = demo_conversations self1 !! "a"
    ∧ active_calls self2 !! Some "a" = active_calls self1 !! Some "a".
Proof.
  destruct (X3_request_touches_one_session (VoiceAI.init true true)
              (ProcessDemo env_fluent "Hello" (Some "a")))
    as (o1 & self1 & Hs1 & _).
  destruct (X3_request_touches_one_session self1
              (ProcessDemo env_raising "Hi" (Some "b")))
    as (o2 & self2 & Hs2 & Hdc & Hac & _).
  exists o1, self1, o2, self2. split; [exact Hs1|]. split; [exact Hs2|].
  split.
  - apply Hdc. intros r ->.
    destruct (step_ok self1 (ProcessDemo env_raising "Hi" (Some "b")))
      as (o & s & Hs & Ha & _).
    rewrite Hs2 in Hs. injection Hs as <- _.
    destruct Ha as (-> & _). discriminate.
  - apply Hac. discriminate.
Defined.

(** ** The two generators keep apart *)

Section Separation.

Lemma steps_llm self calls outs self' :
  steps self calls outs self' → uses_llm self = true →
  mock_processor self' = mock_processor self
  ∧ (∀ k, is_Some (active_calls self !! k) →
          is_Some (active_calls self' !! k))
  ∧ (∀ c, c ∈ calls → is_Some (active_calls self' !! generation_id c)).
Proof.
  induction 1 as [|s c o s1 cs os s2 Hs _ IH]; intros Hu.
  - split_and!; [done | done |]. by intros c ?%elem_of_nil.
  - pose proof (step_uses_llm _ _ _ _ Hs) as Hu1. rewrite Hu in Hu1.
    destruct (step_effect _ _ _ _ Hs) as (_ & _ & Heff).
    rewrite Hu in Heff. destruct Heff as (_ & Hmp & Hac).
    destruct (IH Hu1) as (IHmp & IHkeep & IHnew).
    assert (∀ k, is_Some (active_calls s !! k) →
                 is_Some (active_calls s1 !! k)) as Hkeep.
    { intros k Hk. rewrite Hac, lookup_insert. by case_decide. }
    split_and!.
    + congruence.
    + auto.
    + intros c' [-> | Hc']%elem_of_cons; [|auto].
      apply IHkeep. rewrite Hac, lookup_insert_eq. by eexists.
Qed.

Lemma steps_no_llm self calls outs self' :
  steps self calls outs self' → uses_llm self = false →
  active_calls self' = active_calls self
  ∧ MockAudioProcessor.response_index (mock_processor self')
    = MockAudioProcessor.response_index (mock_processor self) + length calls.
Proof.
  induction 1 as [|s c o s1 cs os s2 Hs _ IH]; intros Hu.
  - split; [done | simpl; lia].
  - pose proof (step_uses_llm _ _ _ _ Hs) as Hu1. rewrite Hu in Hu1.
    destruct (step_effect _ _ _ _ Hs) as (_ & _ & Heff).
    rewrite Hu in Heff. destruct Heff as (_ & Hidx & Hac).
    destruct (IH Hu1) as [IHac IHidx].
    split; [congruence | simpl; lia].
Qed.

End Separation.

(** X4. The two generators never share state.  While the mock generator
    answers (demo mode, no model loaded), no prompt history is created or
    changed, and the mock's counter advances by one per request.  While the
    model-backed generator answers, the mock's counter stands still, no
    prompt history is ever removed, and every request leaves a prompt
    history under the key it generated for; a direct call without a
    conversation id uses the key [None], which all such calls share. *)
Theorem X4_generators_keep_apart (self : VoiceAI.t) (calls : list Call) :
  ∃ outs self',
    run self calls = Ok (outs, self')
    ∧ (uses_llm self = false →
       active_calls self' = active_calls self
       ∧ MockAudioProcessor.response_index (mock_processor self')
         = MockAudioProcessor.response_index (mock_processor self)
           + length calls)
    ∧ (uses_llm self = true →
       mock_processor self' = mock_processor self
       ∧ (∀ k, is_Some (active_calls self !! k) →
               is_Some (active_calls self' !! k))
       ∧ (∀ c, c ∈ calls →
               is_Some (active_calls self' !! generation_id c))).
Proof.
  destruct (run_steps self calls) as (outs & self' & Hrun & Hsteps).
  exists outs, self'. split; [done|]. split.
  - by apply (steps_no_llm self calls outs).
  - by apply (steps_llm self calls outs).
Qed.

(** X4 on both kinds of process. *)
Lemma X4_witness :
  (∃ outs self',
     run (VoiceAI.init true false)
       [ProcessDemo env_fluent "Hello" None;
        GenerateResponse env_fluent "Hi" None] = Ok (outs, self')
     ∧ active_calls self' = ∅
     ∧ MockAudioProcessor.response_index (mock_processor self') = 2)
  ∧ (∃ outs self',
       run (VoiceAI.init false true)
         [ProcessDemo env_fluent "Hello" None;
          GenerateResponse env_fluent "Hi" None] = Ok (outs, self')
       ∧ MockAudioProcessor.response_index (mock_processor self') = 0
       ∧ is_Some (active_calls self' !! None)).
Proof.
  split.
  - destruct (X4_generators_keep_apart (VoiceAI.init true false)
                [ProcessDemo env_fluent "Hello" None;
                 GenerateResponse env_fluent "Hi" None])
      as (outs & self' & Hrun & Hmock & _).
    destruct (Hmock eq_refl) as [Hac Hidx].
    exists outs, self'. split; [exact Hrun|]. split; [exact Hac | exact Hidx].
  - destruct (X4_generators_keep_apart (VoiceAI.init false true)
                [ProcessDemo env_fluent "Hello" None;
                 GenerateResponse env_fluent "Hi" None])
      as (outs & self' & Hrun & _ & Hllm).
    destruct (Hllm eq_refl) as (Hmp & _ & Hnew).
    exists outs, self'. split; [exact Hrun|]. split.
    + by rewrite Hmp.
    + apply (Hnew (GenerateResponse env_fluent "Hi" None)).
      apply elem_of_cons. right. apply elem_of_cons. by left.
Defined.

(** ** Prompt history and transcript side by side *)

Section Mirror.

Lemma step_mirror self c o self' :
  step self c = Ok (o, self') →
  llm_loaded self = true →
  chat_without_raise c →
  (∀ id, history_of self (Some id) = line_of_turn <$> transcript self id) →
  ∀ id, history_of self' (Some id) = line_of_turn <$> transcript self' id.
Proof.
  intros Hs Hl Hc Hm id.
  destruct c as [env ui cid | env ui cid]; [|done]. simpl in Hc.
  destruct (step_effect _ _ _ _ Hs) as (_ & _ & Heff).
  assert (uses_llm self = true) as Hu.
  { unfold uses_llm. rewrite Hl. apply orb_true_r. }
  rewrite Hu in Heff. simpl in Heff. destruct Heff as (Hreply & _ & Hac).
  unfold run_llm in Hreply, Hac. rewrite Hl in Hreply, Hac.
  destruct (Hc (prompt_for self (Some (resolve_id env cid)) ui))
    as [decoded Hdecoded].
  rewrite Hdecoded in Hreply, Hac. simpl in Hreply, Hac.
  destruct (step_ok self (ProcessDemo env ui cid))
    as (o' & s' & Hs' & Ha & Ht & _).
  rewrite Hs in Hs'. injection Hs' as <- <-.
  destruct o as [r | ?]; [|done].
  destruct Ha as (Hid & Hum & resp & _ & Ham).
  simpl in Hreply. rewrite Ham, lookup_message_dict_message in Hreply.
  injection Hreply as ->.
  rewrite Ht, fmap_app. unfold recorded_by. rewrite Hid.
  unfold history_of at 1. rewrite Hac, lookup_insert.
  destruct (decide (resolve_id env cid = id)) as [->|Hne].
  - rewrite decide_True by done. simpl.
    rewrite Hm, Hum, Ham, line_of_user_turn, line_of_ai_turn. done.
  - rewrite decide_False by congruence. simpl.
    rewrite app_nil_r. apply Hm.
Qed.

Lemma steps_mirror self calls outs self' :
  steps self calls outs self' →
  llm_loaded self = true →
  Forall chat_without_raise calls →
  (∀ id, history_of self (Some id) = line_of_turn <$> transcript self id) →
  ∀ id, history_of self' (Some id) = line_of_turn <$> transcript self' id.
Proof.
  induction 1 as [|s c o s1 cs os s2 Hs _ IH]; intros Hl Hc Hm; [done|].
  apply Forall_cons in Hc as [Hc Hcs].
  destruct (step_effect _ _ _ _ Hs) as (_ & Hl1 & _).
  apply IH; [congruence | done |].
  by eapply step_mirror.
Qed.

End Mirror.

(** X5. On a process started with a model loaded, as long as every request
    is a chat request and the model returns on every prompt, the prompt
    history of each session is the session's transcript, line by line: a
    user turn as the customer line of its text, an assistant turn as the
    assistant line of its text.  So the context handed to the model is cut
    from what the caller sees as [conversation_history]. *)
Theorem X5_prompt_history_mirrors_transcript
    (demo : bool) (calls : list Call) :
  Forall chat_without_raise calls →
  ∃ outs self',
    run (VoiceAI.init demo true) calls = Ok (outs, self')
    ∧ ∀ id, history_of self' (Some id)
            = line_of_turn <$> transcript self' id.
Proof.
  intros Hcalls.
  destruct (run_steps (VoiceAI.init demo true) calls)
    as (outs & self' & Hrun & Hsteps).
  exists outs, self'. split; [done|].
  by eapply steps_mirror.
Qed.

(** X5 on two sessions. *)
Lemma X5_witness :
  ∃ outs self',
    run (VoiceAI.init true true)
      [ProcessDemo env_fluent "Hello" (Some "s1");
       ProcessDemo env_empty "" None;
       ProcessDemo env_fluent "Can you help me?" (Some "s1")]
    = Ok (outs, self')
    ∧ history_of self' (Some "s1") = line_of_turn <$> transcript self' "s1".
Proof.
  destruct (X5_prompt_history_mirrors_transcript true
              [ProcessDemo env_fluent "Hello" (Some "s1");
               ProcessDemo env_empty "" None;
               ProcessDemo env_fluent "Can you help me?" (Some "s1")])
    as (outs & self' & Hrun & Hmirror).
  { repeat constructor; intros prompt; eexists; reflexivity. }
  exists outs, self'. split; [exact Hrun | exact (Hmirror "s1")].
Defined.

(** ** The mock recogniser *)

Section MockTranscribe.

Lemma mock_inputs_length : length MockAudio.mock_inputs = 7.
Proof. reflexivity. Qed.

Lemma mock_inputs_nonempty text : text ∈ MockAudio.mock_inputs → text ≠ "".
Proof.
  unfold MockAudio.mock_inputs. intros Hin.
  repeat (apply elem_of_cons in Hin as [-> | Hin]; [discriminate|]).
  by apply elem_of_nil in Hin.
Qed.

Lemma transcribe_audio_demo out self parts audio_data :
  demo_mode self = true →
  ∃ text,
    Service.transcribe_audio out self parts audio_data = Ok text
    ∧ MockAudio.mock_inputs
        !! (MockAudioProcessor.response_index (mock_processor self) mod 7)
      = Some text
    ∧ text ≠ "".
Proof.
  intros Hd. unfold Service.transcribe_audio, MockAudio.transcribe,
    Py.list_getitem. rewrite Hd, mock_inputs_length.
  destruct (lookup_lt_is_Some_2 MockAudio.mock_inputs
              (MockAudioProcessor.response_index (mock_processor self) mod 7))
    as [text Htext].
  { rewrite mock_inputs_length. apply Nat.mod_upper_bound. lia. }
  rewrite Htext. exists text. split_and!; [done..|].
  apply mock_inputs_nonempty. by eapply list_elem_of_lookup_2.
Qed.

End MockTranscribe.

(** X6. In demo mode [transcribe_audio] ignores the audio: it returns the
    scripted sentence at the position of the mock generator's counter, and
    does not move the counter.  On a process with no model loaded, after [n]
    requests it returns sentence [n mod 7], the one that goes with the reply
    the next request will get.  On a process with a model loaded the counter
    never moves, so it returns the first sentence for ever. *)
Theorem X6_mock_transcription_follows_the_counter
    (out : Outside) (parts : Parts) (audio_data : list Byte.byte)
    (calls : list Call) :
  (∃ outs self' text,
     run (VoiceAI.init true false) calls = Ok (outs, self')
     ∧ Service.transcribe_audio out self' parts audio_data = Ok text
     ∧ MockAudio.mock_inputs !! (length calls mod 7) = Some text
     ∧ text ≠ "")
  ∧ (∃ outs self',
       run (VoiceAI.init true true) calls = Ok (outs, self')
       ∧ Service.transcribe_audio out self' parts audio_data
         = Ok "Hello, I need help with my account").
Proof.
  split.
  - destruct (run_steps (VoiceAI.init true false) calls)
      as (outs & self' & Hrun & Hsteps).
    destruct (steps_flags _ _ _ _ Hsteps) as [Hd _].
    destruct (steps_no_llm _ _ _ _ Hsteps eq_refl) as [_ Hidx].
    destruct (transcribe_audio_demo out self' parts audio_data Hd)
      as (text & Ht & Hlookup & Hne).
    rewrite Hidx in Hlookup. by exists outs, self', text.
  - destruct (run_steps (VoiceAI.init true true) calls)
      as (outs & self' & Hrun & Hsteps).
    destruct (steps_flags _ _ _ _ Hsteps) as [Hd _].
    destruct (steps_llm _ _ _ _ Hsteps eq_refl) as (Hmp & _).
    destruct (transcribe_audio_demo out self' parts audio_data Hd)
      as (text & Ht & Hlookup & _).
    rewrite Hmp in Hlookup. injection Hlookup as <-.
    by exists outs, self'.
Qed.

(** ** Construction and the methods around the conversation *)

Section Construction.

Lemma lstrip_idem s : Py.lstrip (Py.lstrip s) = Py.lstrip s.
Proof.
  induction s as [|c s IH]; simpl; [done|].
  destruct (Py.isspace c) eqn:E; [done|]. simpl. by rewrite E.
Qed.

Lemma rstrip_idem s : Py.rstrip (Py.rstrip s) = Py.rstrip s.
Proof.
  induction s as [|c s IH]; simpl; [done|].
  destruct (Py.rstrip s) as [|d r] eqn:E.
  - destruct (Py.isspace c) eqn:Ec; simpl; [done|]. by rewrite Ec.
  - simpl in *. by rewrite IH.
Qed.

Lemma lstrip_rstrip_fixed s :
  Py.lstrip s = s → Py.lstrip (Py.rstrip s) = Py.rstrip s.
Proof.
  destruct s as [|c s]; simpl; [done|].
  destruct (Py.isspace c) eqn:Ec.
  - intros H. pose proof (lstrip_length s) as Hlen.
    rewrite H in Hlen. simpl in Hlen. lia.
  - intros _. destruct (Py.rstrip s); simpl; by rewrite Ec.
Qed.

(** Stripping leaves nothing to strip, at either end. *)
Lemma strip_trimmed s :
  Py.lstrip (Py.strip s) = Py.strip s ∧ Py.rstrip (Py.strip s) = Py.strip s.
Proof.
  unfold Py.strip. split.
  - apply lstrip_rstrip_fixed, lstrip_idem.
  - apply rstrip_idem.
Qed.

Lemma construct_demo h :
  PyText.env_flag (Service.DEMO_MODE h) = true →
  ∃ llm_ok parts,
    Service.construct h = inr (VoiceAI.init true llm_ok, parts)
    ∧ whisper_model parts ≠ Unset
    ∧ tts_engine parts ≠ Unset
    ∧ plivo_client parts = false.
Proof.
  intros Hflag. unfold Service.construct. rewrite Hflag.
  unfold Service._init_demo_mode. eexists _, _. split; [reflexivity|].
  simpl. split_and!; [| |done].
  - destruct (_ && _); [|done].
    by destruct (Service.whisper_load h).
  - destruct (Service.TTS_AVAILABLE h); [|done].
    by destruct (Service.tts_init h).
Qed.

Lemma construct_production h self parts :
  PyText.env_flag (Service.DEMO_MODE h) = false →
  Service.construct h = inr (self, parts) →
  self = VoiceAI.init false (Service.TRANSFORMERS_AVAILABLE h)
  ∧ parts = {| whisper_model :=
                 if Service.WHISPER_AVAILABLE h then Loaded else Unset;
               tts_engine :=
                 if Service.TTS_AVAILABLE h then Loaded else Unset;
               plivo_client := true |}
  ∧ Service.PLIVO_AVAILABLE h = true
  ∧ Py.not_opt (Service.PLIVO_AUTH_ID h) = false
  ∧ Py.not_opt (Service.PLIVO_AUTH_TOKEN h) = false.
Proof.
  intros Hflag. unfold Service.construct. rewrite Hflag.
  unfold Service._init_production_mode, Service._load_models.
  destruct (Service.PLIVO_AVAILABLE h); simpl; [|done].
  destruct (Py.not_opt (Service.PLIVO_AUTH_ID h)); simpl; [done|].
  destruct (Py.not_opt (Service.PLIVO_AUTH_TOKEN h)); simpl; [done|].
  destruct (Service.rest_client h); [done|].
  destruct (if Service.WHISPER_AVAILABLE h then _ else _); [done|].
  destruct (if Service.TRANSFORMERS_AVAILABLE h then _ else _); [done|].
  destruct (if Service.TTS_AVAILABLE h then _ else _); [done|].
  by intros [= <- <-].
Qed.

End Construction.

(** X7. With [DEMO_MODE] unset or spelling "true" in any case, the
    constructor returns whatever the host lacks and whichever loader fails,
    with empty stores and no telephony client.  On the object it returns, in
    every state a sequence of requests leads to and whatever the outside
    world does, none of the methods raises: [transcribe_audio] returns a
    non-empty sentence, [text_to_speech] returns bytes, and
    [make_outbound_call] returns ["demo_call_"] followed by the clock's
    whole seconds for any phone number, without reaching the provider. *)
Theorem X7_demo_mode_never_raises (h : Service.Host) :
  PyText.env_flag (Service.DEMO_MODE h) = true →
  ∃ llm_ok parts,
    Service.construct h = inr (VoiceAI.init true llm_ok, parts)
    ∧ plivo_client parts = false
    ∧ ∀ calls out audio_data text phone_number,
        ∃ outs self' sentence audio,
          run (VoiceAI.init true llm_ok) calls = Ok (outs, self')
          ∧ Service.transcribe_audio out self' parts audio_data = Ok sentence
          ∧ sentence ≠ ""
          ∧ Service.text_to_speech out self' parts text = Ok audio
          ∧ Service.make_outbound_call out self' parts phone_number
            = inr ("demo_call_" +:+ Py.str_int (call_clock out)).
Proof.
  intros Hflag.
  destruct (construct_demo h Hflag) as (llm_ok & parts & Hc & Hw & Ht & Hp).
  exists llm_ok, parts. split; [done|]. split; [done|].
  intros calls out audio_data text phone_number.
  destruct (run_steps (VoiceAI.init true llm_ok) calls)
    as (outs & self' & Hrun & Hsteps).
  destruct (steps_flags _ _ _ _ Hsteps) as [Hd _]. simpl in Hd.
  destruct (transcribe_audio_demo out self' parts audio_data Hd)
    as (sentence & Hs & _ & Hne).
  assert (∃ audio, Service.text_to_speech out self' parts text = Ok audio)
    as [audio Haudio].
  { unfold Service.text_to_speech. rewrite Hd.
    destruct (_ && _); [by eexists|].
    destruct (tts_engine parts); [done | by eexists |]. simpl.
    destruct (tts_render out text); by eexists. }
  exists outs, self', sentence, audio. split_and!; [done..|].
  unfold Service.make_outbound_call. by rewrite Hd.
Qed.

(** X7 on a host where Whisper fails to load and the transformers package
    is missing. *)
Lemma X7_witness :
  ∃ llm_ok parts sentence audio,
    Service.construct host_demo = inr (VoiceAI.init true llm_ok, parts)
    ∧ Service.transcribe_audio outside_quiet (VoiceAI.init true llm_ok) parts
        [] = Ok sentence
    ∧ Service.text_to_speech outside_quiet (VoiceAI.init true llm_ok) parts
        "Hello" = Ok audio
    ∧ Service.make_outbound_call outside_quiet (VoiceAI.init true llm_ok)
        parts "+91-DEMO-NUMBER" = inr "demo_call_1700000000".
Proof.
  destruct (X7_demo_mode_never_raises host_demo eq_refl)
    as (llm_ok & parts & Hc & _ & Hall).
  destruct (Hall [] outside_quiet [] "Hello" "+91-DEMO-NUMBER")
    as (outs & self' & sentence & audio & Hrun & Ht & _ & Ha & Hcall).
  injection Hrun as <- <-.
  exists llm_ok, parts, sentence, audio.
  split; [exact Hc|]. split; [exact Ht|]. split; [exact Ha | exact Hcall].
Defined.

(** X8. In production mode [_load_models] assigns [whisper_model] and
    [tts_engine] only when the package is there, and the two methods read
    the attribute outside their [try].  So on a constructed production
    object, in every later state: without the Whisper package
    [transcribe_audio] raises [AttributeError] for every audio, and with it
    the method returns either the fixed apology or the recognised text with
    no whitespace left at either end; without pyttsx3 [text_to_speech]
    raises [AttributeError] for every text, and with it the method returns
    bytes (none when the engine fails). *)
Theorem X8_production_reads_unassigned_attributes
    (h : Service.Host) (self : VoiceAI.t) (parts : Parts) :
  PyText.env_flag (Service.DEMO_MODE h) = false →
  Service.construct h = inr (self, parts) →
  ∀ calls out audio_data text,
    ∃ outs self',
      run self calls = Ok (outs, self')
      ∧ (Service.WHISPER_AVAILABLE h = false →
         Service.transcribe_audio out self' parts audio_data
         = Raise AttributeError)
      ∧ (Service.WHISPER_AVAILABLE h = true →
         ∃ sentence,
           Service.transcribe_audio out self' parts audio_data = Ok sentence
           ∧ sentence
             = match whisper out audio_data with
               | Ok recognised => Py.strip recognised
               | Raise _ => Service.sorry_reply
               end
           ∧ Py.lstrip sentence = sentence
           ∧ Py.rstrip sentence = sentence)
      ∧ (Service.TTS_AVAILABLE h = false →
         Service.text_to_speech out self' parts text = Raise AttributeError)
      ∧ (Service.TTS_AVAILABLE h = true →
         Service.text_to_speech out self' parts text
         = Ok match tts_render out text with
              | Ok audio => audio
              | Raise _ => []
              end).
Proof.
  intros Hflag Hc calls out audio_data text.
  destruct (construct_production h self parts Hflag Hc)
    as (-> & -> & _).
  destruct (run_steps (VoiceAI.init false (Service.TRANSFORMERS_AVAILABLE h))
              calls) as (outs & self' & Hrun & Hsteps).
  destruct (steps_flags _ _ _ _ Hsteps) as [Hd _]. simpl in Hd.
  exists outs, self'. split; [done|].
  unfold Service.transcribe_audio, Service.text_to_speech.
  rewrite Hd. simpl. split_and!.
  - by intros ->.
  - intros ->. simpl. destruct (whisper out audio_data) as [raw|e].
    + eexists. split; [reflexivity|]. split; [done|]. apply strip_trimmed.
    + eexists. split; [reflexivity|]. by split.
  - by intros ->.
  - intros ->. simpl. by destruct (tts_render out text).
Qed.

(** X8 on a production host without Whisper and pyttsx3. *)
Lemma X8_witness :
  ∃ self parts,
    Service.construct host_bare = inr (self, parts)
    ∧ Service.transcribe_audio outside_quiet self parts []
      = Raise AttributeError
    ∧ Service.text_to_speech outside_quiet self parts "Hello"
      = Raise AttributeError.
Proof.
  eexists _, _. split; [reflexivity|].
  destruct (X8_production_reads_unassigned_attributes host_bare _ _
              eq_refl eq_refl [] outside_quiet [] "Hello")
    as (outs & self' & Hrun & Hw & _ & Ht & _).
  injection Hrun as <- <-.
  split; [exact (Hw eq_refl) | exact (Ht eq_refl)].
Defined.

(** ** The routes *)

(** X9. The handler of [POST /demo/chat], on a request the framework has
    validated, does one of three things and no fourth.  With no [voice_ai]
    it raises the 500 "Voice AI not initialized"; on a production object it
    raises the 400 "Demo mode not enabled"; in both cases nothing is
    recorded.  On a demo object it returns the result of
    [process_demo_conversation], under a non-empty id, for every such
    request, the empty input and the empty id included: its own 500
    "Chat error" branch is never taken.  What the framework answers to a
    body it does not validate, or when it cannot render the result, is not
    the handler's doing and not covered. *)
Theorem X9_demo_chat_outcomes
    (str_exception : Exception → string)
    (voice_ai : option (VoiceAI.t * Parts)) (env : Env)
    (request : DemoRequest.t) :
  match voice_ai with
  | None =>
      Api.demo_chat str_exception voice_ai env request
      = (inl {| status_code := 500; detail := "Voice AI not initialized" |},
         None)
  | Some (self, parts) =>
      if demo_mode self then
        ∃ result self',
          process_demo_conversation env self
            (DemoRequest.user_input request)
            (DemoRequest.conversation_id request) = Ok (result, self')
          ∧ Api.demo_chat str_exception voice_ai env request
            = (inr result, Some (self', parts))
          ∧ conversation_id result ≠ ""
          ∧ demo_mode self' = true
      else
        Api.demo_chat str_exception voice_ai env request
        = (inl {| status_code := 400; detail := "Demo mode not enabled" |},
           voice_ai)
  end.
Proof.
  destruct voice_ai as [[self parts]|]; [|done].
  destruct (demo_mode self) eqn:Hd.
  - destruct (process_demo_conversation_eq env self
                (DemoRequest.user_input request)
                (DemoRequest.conversation_id request))
      as (resp & s2 & _ & _ & Hd2 & _ & Hp).
    eexists _, _. split; [exact Hp|]. simpl. rewrite Hd, Hp. simpl.
    split_and!; [done | apply resolve_id_nonempty | congruence].
  - simpl. by rewrite Hd.
Qed.

(** X10. [POST /call] on a constructed object.  In demo mode it answers
    200 with ["demo_call_"] and the clock's whole seconds for every phone
    number, whatever the provider would do.  In production mode the
    "Plivo not configured" branch cannot be reached: the provider is asked
    once, with the number as given and the stream address derived from
    [PUBLIC_URL]; the answer is 200 with the provider's call id when the
    provider returns, and 500 "Call failed: " with the provider's message
    when it raises. *)
Theorem X10_make_call_outcomes
    (h : Service.Host) (self : VoiceAI.t) (parts : Parts) :
  Service.construct h = inr (self, parts) →
  ∀ calls out request,
    ∃ outs self',
      run self calls = Ok (outs, self')
      ∧ Api.make_call (Some (self', parts)) out request
        = if PyText.env_flag (Service.DEMO_MODE h) then
            inr {| CallResponse.success := true;
                   CallResponse.call_id :=
                     "demo_call_" +:+ Py.str_int (call_clock out);
                   CallResponse.demo_mode := true;
                   CallResponse.message := "Demo call simulated" |}
          else
            match plivo_create out (PLIVO_PHONE_NUMBER out)
                    (CallRequest.phone_number request)
                    ("data:application/xml;charset=utf-8," +:+
                     Service.answer_xml
                       (Service.ws_url
                          (PyText.getenv (PUBLIC_URL out)
                             "http://localhost:8000"))) with
            | inr call_uuid =>
                inr {| CallResponse.success := true;
                       CallResponse.call_id := call_uuid;
                       CallResponse.demo_mode := false;
                       CallResponse.message := "Call initiated" |}
            | inl e =>
                inl {| status_code := 500;
                       detail := "Call failed: " +:+ raised_text e |}
            end.
Proof.
  intros Hc calls out request.
  destruct (run_steps self calls) as (outs & self' & Hrun & Hsteps).
  destruct (steps_flags _ _ _ _ Hsteps) as [Hd _].
  exists outs, self'. split; [done|].
  unfold Api.make_call, Service.make_outbound_call. rewrite Hd.
  destruct (PyText.env_flag (Service.DEMO_MODE h)) eqn:Hflag.
  - destruct (construct_demo h Hflag) as (llm_ok & parts' & Hc' & _).
    rewrite Hc in Hc'. by injection Hc' as -> ->.
  - destruct (construct_production h self parts Hflag Hc) as (-> & -> & _).
    simpl. by destruct (plivo_create _ _ _ _).
Qed.

(** X10 on a production host whose provider rejects the call. *)
Lemma X10_witness :
  ∃ self parts,
    Service.construct host_bare = inr (self, parts)
    ∧ Api.make_call (Some (self, parts)) outside_quiet
        {| CallRequest.phone_number := "+15550100";
           CallRequest.message := None |}
      = inl {| status_code := 500;
               detail := "Call failed: authentication failed" |}.
Proof.
  eexists _, _. split; [reflexivity|].
  destruct (X10_make_call_outcomes host_bare _ _ eq_refl [] outside_quiet
              {| CallRequest.phone_number := "+15550100";
                 CallRequest.message := None |})
    as (outs & self' & Hrun & Hcall).
  injection Hrun as <- <-. exact Hcall.
Defined.

(** X11. In production mode the constructor raises [ImportError] when the
    Plivo package is missing, and [ValueError] when [PLIVO_AUTH_ID] or
    [PLIVO_AUTH_TOKEN] is unset or empty; a loader that raises is not
    caught either.  Whenever the constructor raises, [voice_ai] is [None]
    and both POST routes answer 500 "Voice AI not initialized" to every
    request. *)
Theorem X11_failed_construction_closes_the_routes
    (str_exception : Exception → string) (h : Service.Host) :
  (PyText.env_flag (Service.DEMO_MODE h) = false →
   Service.PLIVO_AVAILABLE h = false →
   Service.construct h
   = inl {| raised_class := "ImportError";
            raised_text := "Plivo package required for production mode" |})
  ∧ (PyText.env_flag (Service.DEMO_MODE h) = false →
     Service.PLIVO_AVAILABLE h = true →
     Py.not_opt (Service.PLIVO_AUTH_ID h)
     || Py.not_opt (Service.PLIVO_AUTH_TOKEN h) = true →
     Service.construct h
     = inl {| raised_class := "ValueError";
              raised_text :=
                "PLIVO_AUTH_ID and PLIVO_AUTH_TOKEN required for production mode" |})
  ∧ (∀ e, Service.construct h = inl e →
       PyText.env_flag (Service.DEMO_MODE h) = false
       ∧ Service.voice_ai h = None
       ∧ (∀ env request,
            Api.demo_chat str_exception (Service.voice_ai h) env request
            = (inl {| status_code := 500;
                      detail := "Voice AI not initialized" |}, None))
       ∧ (∀ out request,
            Api.make_call (Service.voice_ai h) out request
            = inl {| status_code := 500;
                     detail := "Voice AI not initialized" |})).
Proof.
  split_and!.
  - intros Hflag Hp. unfold Service.construct, Service._init_production_mode.
    by rewrite Hflag, Hp.
  - intros Hflag Hp Hcred.
    unfold Service.construct, Service._init_production_mode.
    by rewrite Hflag, Hp, Hcred.
  - intros e He. split.
    + destruct (PyText.env_flag (Service.DEMO_MODE h)) eqn:Hflag; [|done].
      destruct (construct_demo h Hflag) as (? & ? & Hc & _). congruence.
    + unfold Service.voice_ai. by rewrite He.
Qed.

(** X11 on a production host with an empty token. *)
Lemma X11_witness :
  Service.voice_ai
    {| Service.DEMO_MODE := Some "1";
       Service.USE_LOCAL_MODELS := None;
       Service.PLIVO_AUTH_ID := Some "MAXXXXXXXXXXXXXXXXXX";
       Service.PLIVO_AUTH_TOKEN := Some "";
       Service.WHISPER_AVAILABLE := true;
       Service.TRANSFORMERS_AVAILABLE := true;
       Service.TTS_AVAILABLE := true;
       Service.PLIVO_AVAILABLE := true;
       Service.whisper_load := None;
       Service.llm_load := None;
       Service.tts_init := None;
       Service.rest_client := None |} = None.
Proof.
  destruct (X11_failed_construction_closes_the_routes (λ _, "")
              {| Service.DEMO_MODE := Some "1";
                 Service.USE_LOCAL_MODELS := None;
                 Service.PLIVO_AUTH_ID := Some "MAXXXXXXXXXXXXXXXXXX";
                 Service.PLIVO_AUTH_TOKEN := Some "";
                 Service.WHISPER_AVAILABLE := true;
                 Service.TRANSFORMERS_AVAILABLE := true;
                 Service.TTS_AVAILABLE := true;
                 Service.PLIVO_AVAILABLE := true;
                 Service.whisper_load := None;
                 Service.llm_load := None;
                 Service.tts_init := None;
                 Service.rest_client := None |}) as (_ & Hcred & Hclosed).
  exact (proj1 (proj2 (Hclosed _ (Hcred eq_refl eq_refl eq_refl)))).
Defined.

(** ** The stream address *)

Section StreamAddress.

Lemma replace_go_no_occurrence old new s :
  occurs old s = false → Py.replace_go old new 0 s = s.
Proof.
  induction s as [|c s IH]; [done|].
  cbn [occurs Py.replace_go]. intros [Hp Ho]%orb_false_elim.
  rewrite Hp. f_equal. by apply IH.
Qed.

Lemma replace_http rest :
  occurs "http" rest = false →
  Py.replace "http" "ws" ("http" +:+ rest) = "ws" +:+ rest.
Proof.
  intros Ho. unfold Py.replace.
  assert (String.prefix "http" ("http" +:+ rest) = true) as Hp.
  { simpl. by destruct rest. }
  change ("http" +:+ rest)
    with (String "h" (String "t" (String "t" (String "p" rest)))) in *.
  cbn [Py.replace_go]. rewrite Hp.
  cbn [String.length Nat.sub Py.replace_go].
  by rewrite replace_go_no_occurrence.
Qed.

End StreamAddress.

(** X12. The stream address handed to the provider: for a public address
    that starts with "http" and holds no further "http", the scheme becomes
    "ws" (so "https" becomes "wss"), everything after it is kept, and
    "/ws/call" is appended. *)
Theorem X12_stream_address_keeps_the_host (rest : string) :
  occurs "http" rest = false →
  Service.ws_url ("http" +:+ rest) = "ws" +:+ rest +:+ "/ws/call"
  ∧ Service.ws_url ("https" +:+ rest) = "wss" +:+ rest +:+ "/ws/call".
Proof.
  intros Ho. unfold Service.ws_url. split.
  - by rewrite replace_http.
  - change ("https" +:+ rest) with ("http" +:+ ("s" +:+ rest)).
    rewrite replace_http; [done|].
    change ("s" +:+ rest) with (String "s" rest).
    cbn [occurs]. by rewrite Ho.
Qed.

(** X12 on the default public address. *)
Lemma X12_witness :
  Service.ws_url "http://localhost:8000" = "ws://localhost:8000/ws/call".
Proof.
  exact (proj1 (X12_stream_address_keeps_the_host "://localhost:8000"
                  eq_refl)).
Defined.

(** ** The callers *)

Section Callers.

Variable str_exception : Exception → string.

(** A chat request through the route, on a demo object. *)
Lemma demo_chat_demo self parts env request :
  demo_mode self = true →
  let id := resolve_id env (DemoRequest.conversation_id request) in
  let um :=
    message_dict (now_user env) "user" (DemoRequest.user_input request) in
  ∃ response self2,
    let am := message_dict (now_ai env) "ai" response in
    Api.demo_chat str_exception (Some (self, parts)) env request
    = (inr {| conversation_id := id;
              user_message := um;
              ai_response := am;
              conversation_history := transcript self id ++ [um; am] |},
       Some (set_demo_conversations
               (<[id := transcript self id ++ [um; am]]>
                  (demo_conversations self)) self2, parts))
    ∧ demo_mode self2 = true.
Proof.
  intros Hd id um.
  destruct (process_demo_conversation_eq env self
              (DemoRequest.user_input request)
              (DemoRequest.conversation_id request))
    as (resp & s2 & _ & _ & Hd2 & _ & Hp).
  exists resp, s2. simpl. rewrite Hd, Hp. simpl.
  split; [done | congruence].
Qed.

(** The loop once an id is known. *)
Lemma chat_loop_known parts id messages :
  id ≠ "" →
  ∀ self, demo_mode self = true →
  ∃ results self',
    Client.chat_loop str_exception (Some (self, parts)) (Some id) messages
    = (inr <$> results, Some id, Some (self', parts))
    ∧ Forall (λ r, conversation_id r = id) results
    ∧ (λ r, user_message r !! "message") <$> results
      = (λ m, Some m.1) <$> messages
    ∧ transcript self' id
      = transcript self id
        ++ flat_map (λ r, [user_message r; ai_response r]) results
    ∧ (∀ other, other ≠ id →
         demo_conversations self' !! other
         = demo_conversations self !! other).
Proof.
  intros Hid. induction messages as [|[message env] rest IH]; intros self Hd.
  - exists [], self. simpl. split_and!; try done. by rewrite app_nil_r.
  - destruct (demo_chat_demo self parts env
                {| DemoRequest.user_input := message;
                   DemoRequest.conversation_id := Some id |} Hd)
      as (resp & s2 & Hchat & Hd2).
    cbn [DemoRequest.user_input DemoRequest.conversation_id] in Hchat.
    rewrite (resolve_id_given env id Hid) in Hchat.
    set (um := message_dict (now_user env) "user" message) in *.
    set (am := message_dict (now_ai env) "ai" resp) in *.
    set (self1 := set_demo_conversations
                    (<[id := transcript self id ++ [um; am]]>
                       (demo_conversations self)) s2) in *.
    destruct (IH self1 Hd2) as (results & self' & Hloop & Hids & Htexts
                                & Htr & Hframe).
    eexists (_ :: results), self'.
    cbn [Client.chat_loop].
    assert (Py.not_opt (Some id) = false) as ->.
    { destruct id; [done | reflexivity]. }
    rewrite Hchat. cbn [conversation_id]. rewrite Hloop.
    split; [reflexivity|]. split_and!.
    + by constructor.
    + cbn [fmap list_fmap user_message fst]. rewrite Htexts.
      subst um. by rewrite lookup_message_dict_message.
    + rewrite Htr. subst self1.
      rewrite transcript_set_insert, decide_True by done.
      by rewrite <- app_assoc.
    + intros other Hother. rewrite (Hframe other Hother). subst self1. simpl.
      by apply lookup_insert_ne.
Qed.

End Callers.

(** X13. The client loop of [test_api_endpoints] and [interactive_chat]
    against a demo object: it starts without an id, and every message of a
    run lands in one session, the one minted for the first message.  Every
    request is answered 200 under that id, the session's transcript grows by
    the turns of these requests, in order, with the messages as the texts of
    the user turns, and no other session is touched. *)
Theorem X13_client_loop_keeps_one_session
    (str_exception : Exception → string) (self : VoiceAI.t) (parts : Parts)
    (message : string) (env : Env) (rest : list (string * Env)) :
  demo_mode self = true →
  let id := "demo_" +:+ Py.str_int (epoch_seconds env) in
  ∃ results self',
    Client.chat_loop str_exception (Some (self, parts)) None
      ((message, env) :: rest)
    = (inr <$> results, Some id, Some (self', parts))
    ∧ Forall (λ r, conversation_id r = id) results
    ∧ (λ r, user_message r !! "message") <$> results
      = (λ m, Some m.1) <$> ((message, env) :: rest)
    ∧ transcript self' id
      = transcript self id
        ++ flat_map (λ r, [user_message r; ai_response r]) results
    ∧ (∀ other, other ≠ id →
         demo_conversations self' !! other
         = demo_conversations self !! other).
Proof.
  intros Hd id.
  destruct (demo_chat_demo str_exception self parts env
              {| DemoRequest.user_input := message;
                 DemoRequest.conversation_id := None |} Hd)
    as (resp & s2 & Hchat & Hd2).
  cbn [DemoRequest.user_input DemoRequest.conversation_id] in Hchat.
  change (resolve_id env None) with id in Hchat.
  set (um := message_dict (now_user env) "user" message) in *.
  set (am := message_dict (now_ai env) "ai" resp) in *.
  set (self1 := set_demo_conversations
                  (<[id := transcript self id ++ [um; am]]>
                     (demo_conversations self)) s2) in *.
  assert (id ≠ "") as Hid by done.
  destruct (chat_loop_known str_exception parts id rest Hid self1 Hd2)
    as (results & self' & Hloop & Hids & Htexts & Htr & Hframe).
  eexists (_ :: results), self'.
  cbn [Client.chat_loop Py.not_opt]. rewrite Hchat.
  cbn [conversation_id]. rewrite Hloop.
  split; [reflexivity|]. split_and!.
  - by constructor.
  - cbn [fmap list_fmap user_message fst]. rewrite Htexts.
    subst um. by rewrite lookup_message_dict_message.
  - rewrite Htr. subst self1.
    rewrite transcript_set_insert, decide_True by done.
    by rewrite <- app_assoc.
  - intros other Hother. rewrite (Hframe other Hother). subst self1. simpl.
    by apply lookup_insert_ne.
Qed.

(** X13 on three messages sent to a fresh demo object. *)
Lemma X13_witness :
  ∃ results self',
    Client.chat_loop (λ _, "") (Some (VoiceAI.init true false, 
                                      {| whisper_model := IsNone;
                                         tts_engine := IsNone;
                                         plivo_client := false |})) None
      [("Hello, I need help with my account", env_fluent);
       ("Can you tell me about your services?", env_empty);
       ("Thank you for your help", env_raising)]
    = (inr <$> results, Some "demo_1700000000",
       Some (self', {| whisper_model := IsNone;
                       tts_engine := IsNone;
                       plivo_client := false |}))
    ∧ length (transcript self' "demo_1700000000") = 6.
Proof.
  destruct (X13_client_loop_keeps_one_session (λ _, "")
              (VoiceAI.init true false)
              {| whisper_model := IsNone;
                 tts_engine := IsNone;
                 plivo_client := false |}
              "Hello, I need help with my account" env_fluent
              [("Can you tell me about your services?", env_empty);
               ("Thank you for your help", env_raising)] eq_refl)
    as (results & self' & Hloop & _ & Htexts & Htr & _).
  exists results, self'. split; [exact Hloop|].
  apply (f_equal length) in Htexts. rewrite !length_fmap in Htexts.
  apply (f_equal length) in Htr. rewrite length_app in Htr.
  destruct results as [|r1 [|r2 [|r3 [|r4 rs]]]]; try discriminate Htexts.
  exact Htr.
Defined.

(** X14. [test_conversation_continuity] passes on every demo object, in
    whatever state the earlier tests left it and whatever the clock and the
    generator do: the second answer carries the id of the first, and its
    history has at least four turns. *)
Theorem X14_continuity_test_passes
    (str_exception : Exception → string) (self : VoiceAI.t) (parts : Parts)
    (env1 env2 : Env) :
  demo_mode self = true →
  Client.test_conversation_continuity str_exception (Some (self, parts))
    env1 env2 = true.
Proof.
  intros Hd. unfold Client.test_conversation_continuity.
  destruct (demo_chat_demo str_exception self parts env1
              {| DemoRequest.user_input := "Hello";
                 DemoRequest.conversation_id := None |} Hd)
    as (resp1 & s1 & -> & Hd1).
  cbn [DemoRequest.user_input DemoRequest.conversation_id conversation_id].
  set (id := resolve_id env1 None).
  set (self1 := set_demo_conversations _ s1).
  destruct (demo_chat_demo str_exception self1 parts env2
              {| DemoRequest.user_input := "Can you help me?";
                 DemoRequest.conversation_id := Some id |} Hd1)
    as (resp2 & s2 & -> & _).
  cbn [DemoRequest.user_input DemoRequest.conversation_id conversation_id
       conversation_history].
  rewrite (resolve_id_given env2 id) by apply resolve_id_nonempty.
  rewrite bool_decide_true by done. cbn [andb].
  apply Nat.leb_le. subst self1.
  rewrite transcript_set_insert, decide_True by done.
  rewrite !length_app. simpl. lia.
Qed.

(** X14 on a demo object that already holds a session minted in the same
    second. *)
Lemma X14_witness :
  ∃ o self1,
    step (VoiceAI.init true false) (ProcessDemo env_fluent "Hi" None)
    = Ok (o, self1)
    ∧ Client.test_conversation_continuity (λ _, "")
        (Some (self1, {| whisper_model := IsNone;
                         tts_engine := IsNone;
                         plivo_client := false |}))
        env_empty env_fluent = true.
Proof.
  destruct (step_ok (VoiceAI.init true false)
              (ProcessDemo env_fluent "Hi" None))
    as (o & self1 & Hs & _ & _ & _ & Hd & _).
  exists o, self1. split; [exact Hs|].
  exact (X14_continuity_test_passes (λ _, "") self1 _ env_empty env_fluent
           Hd).
Defined.
